(** * ThingsBoard HTTP device client: a model of [tb_device_http.py]

    The client wraps a [requests] session bound to a device token.  It
    offers blocking request/response calls (telemetry, attributes, RPC,
    provisioning) and two long-poll loops that run on daemon threads and
    are stopped through a [threading.Event].

    The model is a shallow embedding.  Blocking network calls consume an
    explicit schedule of exchanges; each exchange says what the server
    answered and which [unsubscribe_from_*] calls other threads made in
    the meantime.  Effects (requests sent, log lines, callback
    invocations) are appended to a trace.  A run that reaches the end of
    the schedule with a request in flight is [Blocked]. *)

From Stdlib Require Import ZArith List String Ascii Bool Lia.
From Stdlib Require Import SpecFloat.
Import ListNotations.
Open Scope string_scope.
Open Scope Z_scope.

(** ** Python floats (IEEE 754 binary64) *)

Module Float64.

Definition prec : Z := 53.
Definition emax : Z := 1024.

Definition float : Type := spec_float.

(** [x * y] on floats. *)
Definition mul (x y : float) : float := SFmul prec emax x y.

(** [float(n)] for a Python int. *)
Definition of_int (n : Z) : float := binary_normalize prec emax n 0 false.

(** [a / b] on Python ints with [b > 0]: the quotient of the two
    integers, rounded once to the nearest double (ties to even). *)
Definition int_true_divide (a : Z) (b : positive) : float :=
  match a with
  | Z0 => S754_zero false
  | Zpos m => SFdiv prec emax (S754_finite false m 0) (S754_finite false b 0)
  | Zneg m => SFdiv prec emax (S754_finite true m 0) (S754_finite false b 0)
  end.

(** The integer obtained from [(-1)^s * m * 2^e] when a binary point
    has to be dropped with the integer division [rnd]. *)
Definition scaled (rnd : Z -> Z -> Z) (s : bool) (m : positive) (e : Z) : Z :=
  match e with
  | Zneg p => rnd (cond_Zopp s (Zpos m)) (2 ^ Zpos p)
  | _ => cond_Zopp s (Zpos m) * 2 ^ e
  end.

(** [int(x)]: rounds toward zero; [None] stands for the OverflowError
    (infinity) or ValueError (nan) that Python raises. *)
Definition trunc (x : float) : option Z :=
  match x with
  | S754_zero _ => Some 0
  | S754_finite s m e => Some (scaled Z.quot s m e)
  | S754_infinity _ | S754_nan => None
  end.

(** [math.floor(x)]: rounds toward minus infinity. *)
Definition floor (x : float) : option Z :=
  match x with
  | S754_zero _ => Some 0
  | S754_finite s m e => Some (scaled Z.div s m e)
  | S754_infinity _ | S754_nan => None
  end.


End Float64.

(** ** [datetime.datetime] *)

Module Datetime.

(** [tzinfo] is [None] for a naive datetime and otherwise the zone's
    fixed UTC offset, in microseconds. *)
Record datetime : Type := {
  year : Z; month : Z; day : Z;
  hour : Z; minute : Z; second : Z; microsecond : Z;
  tzinfo : option Z
}.

Definition utc : Z := 0.

Definition is_leap (y : Z) : bool :=
  (y mod 4 =? 0) && (negb (y mod 100 =? 0) || (y mod 400 =? 0)).

Definition days_before_year (y : Z) : Z :=
  let y := y - 1 in y * 365 + y / 4 - y / 100 + y / 400.

Definition days_in_month (y m : Z) : Z :=
  match m with
  | 1 => 31 | 2 => if is_leap y then 29 else 28 | 3 => 31 | 4 => 30
  | 5 => 31 | 6 => 30 | 7 => 31 | 8 => 31 | 9 => 30 | 10 => 31
  | 11 => 30 | _ => 31
  end.

Definition days_before_month (y m : Z) : Z :=
  match m with
  | 1 => 0 | 2 => 31 | 3 => 59 | 4 => 90 | 5 => 120 | 6 => 151
  | 7 => 181 | 8 => 212 | 9 => 243 | 10 => 273 | 11 => 304 | _ => 334
  end + (if (2 <? m) && is_leap y then 1 else 0).

Definition ymd2ord (y m d : Z) : Z :=
  days_before_year y + days_before_month y m + d.

(** The field ranges the [datetime] constructor enforces. *)
Definition valid (t : datetime) : bool :=
  (1 <=? year t) && (year t <=? 9999) &&
  (1 <=? month t) && (month t <=? 12) &&
  (1 <=? day t) && (day t <=? days_in_month (year t) (month t)) &&
  (0 <=? hour t) && (hour t <? 24) &&
  (0 <=? minute t) && (minute t <? 60) &&
  (0 <=? second t) && (second t <? 60) &&
  (0 <=? microsecond t) && (microsecond t <? 1000000).

(** Every [datetime] is true in a boolean context: the class defines
    neither [__bool__] nor [__len__]. *)
Definition truthy (_ : datetime) : bool := true.

(** [t.replace(tzinfo=tz)]: same calendar fields, new zone. *)
Definition replace_tzinfo (t : datetime) (tz : option Z) : datetime :=
  {| year := year t; month := month t; day := day t;
     hour := hour t; minute := minute t; second := second t;
     microsecond := microsecond t; tzinfo := tz |}.

Definition EPOCH : datetime :=
  {| year := 1970; month := 1; day := 1; hour := 0; minute := 0;
     second := 0; microsecond := 0; tzinfo := Some utc |}.

(** Microseconds from midnight of day 0 of the proleptic calendar to the
    wall-clock reading of [t]. *)
Definition wall_microseconds (t : datetime) : Z :=
  ((ymd2ord (year t) (month t) (day t) * 86400
    + hour t * 3600 + minute t * 60 + second t) * 1000000)
  + microsecond t.

Definition utcoffset (t : datetime) : Z :=
  match tzinfo t with Some off => off | None => 0 end.

(** [a - b] for two aware datetimes, as the timedelta's microseconds. *)
Definition sub (a b : datetime) : Z :=
  (wall_microseconds a - utcoffset a) - (wall_microseconds b - utcoffset b).

(** [timedelta.total_seconds()]. *)
Definition total_seconds (microseconds : Z) : Float64.float :=
  Float64.int_true_divide microseconds 1000000.

(** [t.timestamp()] for an aware [t]: [(t - EPOCH).total_seconds()].
    A naive [t] would be read in the platform's local zone; the client
    always attaches UTC first, so that branch is read as UTC here. *)
Definition timestamp (t : datetime) : Float64.float :=
  total_seconds (sub t EPOCH).

End Datetime.

(** ** Values decoded from, or encoded to, JSON *)

Set Warnings "-register-all".

Inductive json : Type :=
| JNull
| JBool (b : bool)
| JInt (n : Z)
| JFloat (x : Float64.float)
| JStr (s : string)
| JList (items : list json)
| JDict (items : list (string * json)).

Fixpoint dict_get (d : list (string * json)) (key : string) : option json :=
  match d with
  | [] => None
  | (k, v) :: d' => if String.eqb k key then Some v else dict_get d' key
  end.

(** [v == s] for a str literal [s]. *)
Definition eq_str (v : json) (s : string) : bool :=
  match v with
  | JStr s' => String.eqb s' s
  | _ => false
  end.

(** [bool(s)] for a str or bytes value. *)
Definition nonempty (s : string) : bool :=
  match s with EmptyString => false | String _ _ => true end.

(** Truth value of a decoded value, as [or] and [if] see it. *)
Definition truthy (v : json) : bool :=
  match v with
  | JNull => false
  | JBool b => b
  | JInt n => negb (n =? 0)
  | JFloat (S754_zero _) => false
  | JFloat _ => true
  | JStr s => nonempty s
  | JList l => match l with [] => false | _ => true end
  | JDict d => match d with [] => false | _ => true end
  end.

(** An f-string such as [f'{self.host}/api/v1/{self.token}'], kept as its
    literal pieces and the values formatted into it. *)
Inductive piece : Type :=
| Lit (s : string)
| Fmt (v : json).

Definition fstring : Type := list piece.

(** ** The [requests] library, as far as the client uses it *)

Record Response : Type := {
  status_code : Z;
  content : string
}.

(** Exceptions the client's code paths can raise.  [TBHTTPAPIException]
    and [TBProvisionFailure] are the module's own classes; the others
    come from [requests] and from the interpreter. *)
Inductive exn : Type :=
| HTTPError (response : Response)
| ConnectionError
| JSONDecodeError
| KeyError (key : string)
| TypeError
| OverflowError
| TBHTTPAPIException (arg : json)
| TBProvisionFailure (device : json)
| CallbackError (what : string).

(** [isinstance(e, TBHTTPAPIException)]: the class and its one subclass. *)
Definition is_TBHTTPAPIException (e : exn) : bool :=
  match e with
  | TBHTTPAPIException _ | TBProvisionFailure _ => true
  | _ => false
  end.

(** Outcome of a piece of client code: a value, an exception, or a thread
    still blocked on the network when the schedule ends. *)
Inductive res (A : Type) : Type :=
| Ok (a : A)
| Exc (e : exn)
| Blocked.

Arguments Ok {A} a.
Arguments Exc {A} e.
Arguments Blocked {A}.

(** [v[key]] on a decoded value. *)
Definition getitem (v : json) (key : string) : res json :=
  match v with
  | JDict d =>
      match dict_get d key with
      | Some x => Ok x
      | None => Exc (KeyError key)
      end
  | _ => Exc TypeError
  end.

(** ** Shared state and effects *)

(** The two keys of [self.subscriptions]. *)
Inductive kind : Type := attributes | rpc.

Definition kind_eqb (a b : kind) : bool :=
  match a, b with
  | attributes, attributes | rpc, rpc => true
  | _, _ => false
  end.

(** One entry of [self.subscriptions]: the flag of its [threading.Event]
    and the name of the thread stored under ['thread'], if any. *)
Record subscription_state : Type := {
  event : bool;
  thread : option string
}.

Inductive level : Type := DEBUG | INFO | WARNING.

Inductive effect : Type :=
| Post (url : fstring) (body : json)
| Get (url : fstring) (params : list (string * json))
| Log (lvl : level) (msg : string)
| Start (thread_name : string)
| Callback (arg : json).

Record state : Type := {
  subscriptions : kind -> subscription_state;
  trace : list effect
}.

(** What happens around one blocking request.  [during] lists the calls
    to [unsubscribe_from_*] that other threads make from the moment this
    thread last looked at its stop signal until the request returns:
    while the previous callback runs, before the request is sent, or while
    it is in flight.  The calls leave no trace of their own (their log
    record is at debug level) and the signal is read only after a request
    has returned, so the three cases act alike.  Then the server answers,
    or the transport fails. *)
Inductive reply : Type :=
| Answer (r : Response)
| Failure.

Record exchange : Type := {
  during : list kind;
  outcome : reply
}.

Definition M (A : Type) : Type :=
  list exchange -> state -> res A * list exchange * state.

Definition ret {A} (a : A) : M A := fun script st => (Ok a, script, st).

Definition raise {A} (e : exn) : M A := fun script st => (Exc e, script, st).

Definition bind {A B} (m : M A) (k : A -> M B) : M B :=
  fun script st =>
    match m script st with
    | (Ok a, script', st') => k a script' st'
    | (Exc e, script', st') => (Exc e, script', st')
    | (Blocked, script', st') => (Blocked, script', st')
    end.

Notation "x <- m ;; k" := (bind m (fun x => k))
  (at level 61, m at next level, right associativity).
Notation "m ;;; k" := (bind m (fun _ => k))
  (at level 61, right associativity).

Definition lift {A} (r : res A) : M A := fun script st => (r, script, st).

(** Projections of a finished run. *)
Definition result {A} (run : res A * list exchange * state) : res A :=
  fst (fst run).

Definition final {A} (run : res A * list exchange * state) : state :=
  snd run.

Definition emit (e : effect) (st : state) : state :=
  {| subscriptions := subscriptions st; trace := (trace st ++ [e])%list |}.

Definition update (k : kind) (f : subscription_state -> subscription_state)
    (st : state) : state :=
  {| subscriptions := fun k' =>
       if kind_eqb k k' then f (subscriptions st k') else subscriptions st k';
     trace := trace st |}.

(** [Event.set()], [Event.clear()] and [Event.is_set()] on
    [self.subscriptions[k]['event']]. *)
Definition event_set (k : kind) : state -> state :=
  update k (fun s => {| event := true; thread := thread s |}).

Definition event_clear (k : kind) : state -> state :=
  update k (fun s => {| event := false; thread := thread s |}).

Definition is_set (k : kind) (st : state) : bool := event (subscriptions st k).

(** The logger is created with level INFO: debug records are dropped. *)
Definition enabled (lvl : level) : bool :=
  match lvl with DEBUG => false | INFO | WARNING => true end.

Definition logger (lvl : level) (msg : string) (st : state) : state :=
  if enabled lvl then emit (Log lvl msg) st else st.

Definition act (f : state -> state) : M unit :=
  fun script st => (Ok tt, script, f st).

(** [unsubscribe_from_attributes] and [unsubscribe_from_rpc]. *)
Definition unsubscribe_from (k : kind) (st : state) : state :=
  let msg := match k with
             | attributes => "Set stop event for attributes subscription."
             | rpc => "Set stop event for RPC subscription."
             end in
  event_set k (logger DEBUG msg st).

Definition unsubscribe_from_attributes : state -> state :=
  unsubscribe_from attributes.

Definition unsubscribe_from_rpc : state -> state := unsubscribe_from rpc.

(** One exchange completes: the calls other threads made meanwhile take
    effect, then the request returns or raises. *)
Definition arrive (x : exchange) (st : state) : res Response * state :=
  let st := fold_left (fun s k => unsubscribe_from k s) (during x) st in
  match outcome x with
  | Answer r => (Ok r, st)
  | Failure => (Exc ConnectionError, st)
  end.

(** A blocking request: it is sent, then the thread waits for the next
    exchange of the schedule. *)
Definition request (e : effect) : M Response :=
  fun script st =>
    let st := emit e st in
    match script with
    | [] => (Blocked, [], st)
    | x :: script' =>
        let '(r, st) := arrive x st in (r, script', st)
    end.

(** [response.raise_for_status()]: the exception it raises, if any. *)
Definition raise_for_status (response : Response) : option exn :=
  if (400 <=? status_code response) && (status_code response <? 600)
  then Some (HTTPError response)
  else None.

Definition check (o : option exn) : M unit :=
  match o with
  | Some e => raise e
  | None => ret tt
  end.

(** ** A JSON decoder for the integer-only, escape-free fragment

    The client is modelled over an arbitrary decoder (see the section
    below); this one instantiates it on concrete runs.  It accepts what
    [json.loads] accepts on documents without fractions, exponents and
    backslash escapes, and rejects every other text. *)

Module JsonText.

Definition code (c : ascii) : Z := Z.of_N (N_of_ascii c).

Definition is_ws (c : ascii) : bool :=
  let n := code c in (n =? 32) || (n =? 9) || (n =? 10) || (n =? 13).

Fixpoint skip_ws (s : string) : string :=
  match s with
  | String c s' => if is_ws c then skip_ws s' else s
  | EmptyString => s
  end.

Definition digit (c : ascii) : option Z :=
  let n := code c in
  if (48 <=? n) && (n <=? 57) then Some (n - 48) else None.

Fixpoint digits (acc : Z) (s : string) : Z * string :=
  match s with
  | String c s' =>
      match digit c with
      | Some d => digits (acc * 10 + d) s'
      | None => (acc, s)
      end
  | EmptyString => (acc, s)
  end.

(** An unsigned integer: [0], or a nonzero digit and more digits, not
    followed by a fraction or an exponent. *)
Definition natural (s : string) : option (Z * string) :=
  match s with
  | String c s' =>
      match digit c with
      | Some d =>
          let '(n, rest) := if d =? 0 then (0, s') else digits d s' in
          match rest with
          | String c' _ =>
              let k := code c' in
              if (k =? 46) || (k =? 69) || (k =? 101) || (48 <=? k) && (k <=? 57)
              then None else Some (n, rest)
          | EmptyString => Some (n, rest)
          end
      | None => None
      end
  | EmptyString => None
  end.

(** The characters of a string literal up to its closing quote. *)
Fixpoint chars (s : string) : option (string * string) :=
  match s with
  | EmptyString => None
  | String c s' =>
      let n := code c in
      if n =? 34 then Some (EmptyString, s')
      else if (n =? 92) || (n <? 32) then None
      else match chars s' with
           | Some (t, rest) => Some (String c t, rest)
           | None => None
           end
  end.

Fixpoint word (w s : string) : option string :=
  match w, s with
  | EmptyString, _ => Some s
  | String a w', String b s' => if Ascii.eqb a b then word w' s' else None
  | String _ _, EmptyString => None
  end.

Definition starts (n : Z) (s : string) : option string :=
  match skip_ws s with
  | String c s' => if code c =? n then Some s' else None
  | EmptyString => None
  end.

Fixpoint value (fuel : nat) (s : string) : option (json * string) :=
  match fuel with
  | O => None
  | S fuel =>
      match skip_ws s with
      | EmptyString => None
      | String c s' as text =>
          let n := code c in
          if n =? 110 then option_map (pair JNull) (word "null" text)
          else if n =? 116 then option_map (pair (JBool true)) (word "true" text)
          else if n =? 102 then option_map (pair (JBool false)) (word "false" text)
          else if n =? 34 then
            match chars s' with
            | Some (t, rest) => Some (JStr t, rest)
            | None => None
            end
          else if n =? 45 then
            match natural s' with
            | Some (k, rest) => Some (JInt (- k), rest)
            | None => None
            end
          else if n =? 91 then
            match starts 93 s' with
            | Some rest => Some (JList [], rest)
            | None =>
                match elements fuel s' with
                | Some (l, rest) => Some (JList l, rest)
                | None => None
                end
            end
          else if n =? 123 then
            match starts 125 s' with
            | Some rest => Some (JDict [], rest)
            | None =>
                match members fuel s' with
                | Some (d, rest) => Some (JDict d, rest)
                | None => None
                end
            end
          else
            match natural text with
            | Some (k, rest) => Some (JInt k, rest)
            | None => None
            end
      end
  end

with elements (fuel : nat) (s : string) : option (list json * string) :=
  match fuel with
  | O => None
  | S fuel =>
      match value fuel s with
      | Some (v, rest) =>
          match starts 93 rest with
          | Some rest' => Some ([v], rest')
          | None =>
              match starts 44 rest with
              | Some rest' =>
                  match elements fuel rest' with
                  | Some (l, rest'') => Some (v :: l, rest'')
                  | None => None
                  end
              | None => None
              end
          end
      | None => None
      end
  end

with members (fuel : nat) (s : string)
    : option (list (string * json) * string) :=
  match fuel with
  | O => None
  | S fuel =>
      match starts 34 s with
      | Some s1 =>
          match chars s1 with
          | Some (key, s2) =>
              match starts 58 s2 with
              | Some s3 =>
                  match value fuel s3 with
                  | Some (v, rest) =>
                      match starts 125 rest with
                      | Some rest' => Some ([(key, v)], rest')
                      | None =>
                          match starts 44 rest with
                          | Some rest' =>
                              match members fuel rest' with
                              | Some (d, rest'') =>
                                  match dict_get d key with
                                  | Some _ => Some (d, rest'')
                                  | None => Some ((key, v) :: d, rest'')
                                  end
                              | None => None
                              end
                          | None => None
                          end
                      end
                  | None => None
                  end
              | None => None
              end
          | None => None
          end
      | None => None
      end
  end.

(** [json.loads] on the fragment.  Of the bindings of a repeated key the
    last one is kept, as in a Python dict. *)
Definition loads (s : string) : option json :=
  match value (S (String.length s)) s with
  | Some (v, rest) =>
      match skip_ws rest with
      | EmptyString => Some v
      | String _ _ => None
      end
  | None => None
  end.

End JsonText.

(** ** The client *)

Record TBHTTPClient : Type := {
  host : string;
  token : json;
  name : option string;
  api_base_url : fstring
}.

Record Thread : Type := {
  thread_name : string;
  target : M unit;
  daemon : bool
}.

(** How one pass through the body of [while True] ends. *)
Inductive control : Type :=
| Break
| Continue
| Raise (e : exn).

(** [bool(timeout)] for [timeout: int = None]. *)
Definition truthy_timeout (timeout : option Z) : bool :=
  match timeout with
  | Some t => negb (t =? 0)
  | None => false
  end.

(** [{'timeout': timeout} if timeout else {}]. *)
Definition poll_params (timeout : option Z) : list (string * json) :=
  match timeout with
  | Some t => if truthy_timeout timeout then [("timeout", JInt t)] else []
  | None => []
  end.

Definition is_2xx (response : Response) : Prop :=
  200 <= status_code response < 300.

(** The calls [ks] to [unsubscribe_from_*], made one after the other. *)
Definition calls (ks : list kind) (st : state) : state :=
  fold_left (fun s k => unsubscribe_from k s) ks st.

(** Two started threads that cannot be told apart: same name, same
    daemon flag, same state left behind by the call that started them,
    and bodies that run alike on every schedule. *)
Definition same_thread (a b : Thread * state) : Prop :=
  thread_name (fst a) = thread_name (fst b)
  /\ daemon (fst a) = daemon (fst b)
  /\ snd a = snd b
  /\ forall script st, target (fst a) script st = target (fst b) script st.

(** The effects a loop adds to the trace: its GET, with the given query
    parameters, and callback invocations. *)
Definition poll_effect (url : fstring) (params : list (string * json))
    (e : effect) : Prop :=
  e = Get url params \/ exists v, e = Callback v.

(** A request that carries no query parameter, or no request at all. *)
Definition without_params (e : effect) : Prop :=
  forall url params, e = Get url params -> params = [].

(** ** Concrete data for runs of the model *)

Definition sample_client : TBHTTPClient :=
  {| host := "http://tb.local"; token := JStr "A1B2C3";
     name := Some "sensor-7";
     api_base_url :=
       [Lit "http://tb.local"; Lit "/api/v1/"; Fmt (JStr "A1B2C3")] |}.

(** A client just constructed: both events unset, no thread, no effect. *)
Definition idle : state :=
  {| subscriptions := fun _ => {| event := false; thread := None |};
     trace := [] |}.

(** The server answers with status [code] and body [body]; no other thread
    interferes. *)
Definition answer (code : Z) (body : string) : exchange :=
  {| during := [];
     outcome := Answer {| status_code := code; content := body |} |}.

(** The server answers while another thread calls [unsubscribe_from k]. *)
Definition answer_during (k : kind) (code : Z) (body : string) : exchange :=
  {| during := [k];
     outcome := Answer {| status_code := code; content := body |} |}.

Definition quoted (s : string) : string :=
  String (ascii_of_nat 34) (s ++ String (ascii_of_nat 34) EmptyString).

(** The body of a successful provisioning answer, and of a refusal. *)
Definition provisioned_body : string :=
  "{" ++ quoted "status" ++ ": " ++ quoted "SUCCESS" ++ ", "
      ++ quoted "credentialsType" ++ ": " ++ quoted "ACCESS_TOKEN" ++ ", "
      ++ quoted "credentialsValue" ++ ": " ++ quoted "X" ++ "}".

Definition provisioned_device : list (string * json) :=
  [("status", JStr "SUCCESS"); ("credentialsType", JStr "ACCESS_TOKEN");
   ("credentialsValue", JStr "X")].

Definition readings : json := JDict [("temperature", JInt 21)].

(** 1969-12-31 23:59:59.999500 and 2021-03-04 05:06:07.891011, naive. *)
Definition before_epoch : Datetime.datetime :=
  {| Datetime.year := 1969; Datetime.month := 12; Datetime.day := 31;
     Datetime.hour := 23; Datetime.minute := 59; Datetime.second := 59;
     Datetime.microsecond := 999500; Datetime.tzinfo := None |}.

Definition after_epoch : Datetime.datetime :=
  {| Datetime.year := 2021; Datetime.month := 3; Datetime.day := 4;
     Datetime.hour := 5; Datetime.minute := 6; Datetime.second := 7;
     Datetime.microsecond := 891011; Datetime.tzinfo := None |}.

(** 1970-01-01 00:00:01.001, naive. *)
Definition one_second_one_milli : Datetime.datetime :=
  {| Datetime.year := 1970; Datetime.month := 1; Datetime.day := 1;
     Datetime.hour := 0; Datetime.minute := 0; Datetime.second := 1;
     Datetime.microsecond := 1000; Datetime.tzinfo := None |}.

(** A callback that returns normally. *)
Definition ignore (_ : json) : option exn := None.

(** The transport fails while another thread asks the RPC loop to stop. *)
Definition failure : exchange := {| during := [rpc]; outcome := Failure |}.

(** A callback that raises. *)
Definition refuse (_ : json) : option exn := Some (CallbackError "refused").

(** 1969-07-20 20:17:40, naive: a whole second before the epoch. *)
Definition whole_second : Datetime.datetime :=
  {| Datetime.year := 1969; Datetime.month := 7; Datetime.day := 20;
     Datetime.hour := 20; Datetime.minute := 17; Datetime.second := 40;
     Datetime.microsecond := 0; Datetime.tzinfo := None |}.

(** The client that [provision] returns for [provisioned_body]. *)
Definition provisioned_client : TBHTTPClient :=
  {| host := "http://tb.local"; token := JStr "X"; name := Some "sensor-7";
     api_base_url := [Lit "http://tb.local"; Lit "/api/v1/"; Fmt (JStr "X")] |}.

Section Client.

(** [response.json()]'s decoder: [None] when the text is not a JSON
    document. *)
Variable json_loads : string -> option json.

Definition response_json (response : Response) : M json :=
  match json_loads (content response) with
  | Some v => ret v
  | None => raise JSONDecodeError
  end.

(** [TBHTTPClient.__init__]. *)
Definition init (host : string) (token : json) (name : option string)
    : M TBHTTPClient :=
  act (fun st =>
    logger WARNING "Log level set to INFO"
      {| subscriptions := fun _ => {| event := false; thread := None |};
         trace := trace st |}) ;;;
  ret {| host := host; token := token; name := name;
         api_base_url := [Lit host; Lit "/api/v1/"; Fmt token] |}.

Definition publish_data (self : TBHTTPClient) (data : json)
    (endpoint : string) : M json :=
  response <- request
    (Post (api_base_url self ++ [Lit "/"; Lit endpoint])%list data) ;;
  check (raise_for_status response) ;;;
  if nonempty (content response) then response_json response
  else ret (JDict []).

Definition get_data (self : TBHTTPClient) (params : list (string * json))
    (endpoint : string) : M json :=
  response <- request
    (Get (api_base_url self ++ [Lit "/"; Lit endpoint])%list params) ;;
  check (raise_for_status response) ;;;
  response_json response.

Definition connect (self : TBHTTPClient) : M unit :=
  publish_data self (JDict []) "telemetry" ;;; ret tt.

(** [timestamp.replace(tzinfo=timezone.utc).timestamp()*1000]. *)
Definition timestamp_milliseconds (timestamp : Datetime.datetime)
    : Float64.float :=
  Float64.mul
    (Datetime.timestamp
       (Datetime.replace_tzinfo timestamp (Some Datetime.utc)))
    (Float64.of_int 1000).

(** [int(timestamp.replace(tzinfo=timezone.utc).timestamp()*1000)]. *)
Definition utc_milliseconds (timestamp : Datetime.datetime) : option Z :=
  Float64.trunc (timestamp_milliseconds timestamp).

(** The specification's reading of the same field:
    [floor(T.utc_epoch_seconds * 1000)], on the double product and on the
    exact count of microseconds. *)
Definition floor_milliseconds (timestamp : Datetime.datetime) : option Z :=
  Float64.floor (timestamp_milliseconds timestamp).

Definition epoch_microseconds (timestamp : Datetime.datetime) : Z :=
  Datetime.sub (Datetime.replace_tzinfo timestamp (Some Datetime.utc))
    Datetime.EPOCH.

Definition exact_floor_milliseconds (timestamp : Datetime.datetime) : Z :=
  epoch_microseconds timestamp / 1000.

Definition send_telemetry (self : TBHTTPClient) (telemetry : json)
    (timestamp : option Datetime.datetime) : M unit :=
  payload <-
    match timestamp with
    | Some t =>
        if Datetime.truthy t then
          match utc_milliseconds t with
          | Some ts => ret (JDict [("ts", JInt ts); ("values", telemetry)])
          | None => raise OverflowError
          end
        else ret telemetry
    | None => ret telemetry
    end ;;
  publish_data self payload "telemetry" ;;; ret tt.

Definition send_attributes (self : TBHTTPClient) (attrs : json) : M unit :=
  publish_data self attrs "attributes" ;;; ret tt.

Definition send_rpc (self : TBHTTPClient) (method : string)
    (params : option json) : M json :=
  let params :=
    match params with
    | Some p => if truthy p then p else JDict []
    | None => JDict []
    end in
  publish_data self (JDict [("method", JStr method); ("params", params)])
    "rpc".

Definition keys (l : option (list string)) : json :=
  match l with
  | Some ks => JList (map JStr ks)
  | None => JNull
  end.

Definition request_attributes (self : TBHTTPClient)
    (client_keys shared_keys : option (list string)) : M json :=
  let params :=
    [("client_keys", keys client_keys); ("shared_keys", keys shared_keys)] in
  get_data self params "attributes".

(** *** The long-poll loops *)

Definition poll_url (self : TBHTTPClient) (k : kind) : fstring :=
  match k with
  | attributes => (api_base_url self ++ [Lit "/attributes/updates"])%list
  | rpc => (api_base_url self ++ [Lit "/rpc"])%list
  end.

Definition start_message (k : kind) : string :=
  match k with
  | attributes => "Start subscription to attribute updates."
  | rpc => "Start subscription to RPCs."
  end.

Definition stop_message (k : kind) : string :=
  match k with
  | attributes => "Stop subscription to attribute updates."
  | rpc => "Stop subscription to attribute updates."
  end.

(** The body of [while True] once the GET has returned [response]. *)
Definition iteration (k : kind) (callback : json -> option exn)
    (timeout : option Z) (response : Response) (st : state)
    : control * state :=
  if is_set k st then (Break, st)
  else if (status_code response =? 408) && truthy_timeout timeout
  then (Break, st)
  else if status_code response =? 504 then (Continue, st)
  else
    match raise_for_status response with
    | Some e => (Raise e, st)
    | None =>
        match json_loads (content response) with
        | None => (Raise JSONDecodeError, st)
        | Some v =>
            match callback v with
            | Some e => (Raise e, emit (Callback v) st)
            | None => (Continue, emit (Callback v) st)
            end
        end
    end.

(** [while True]: each pass issues the GET, waits for the exchange and
    runs [iteration]. *)
Fixpoint loop (self : TBHTTPClient) (k : kind)
    (callback : json -> option exn) (params : list (string * json))
    (timeout : option Z) (script : list exchange) (st : state)
    : res unit * list exchange * state :=
  let st := emit (Get (poll_url self k) params) st in
  match script with
  | [] => (Blocked, [], st)
  | x :: script' =>
      match arrive x st with
      | (Ok response, st) =>
          match iteration k callback timeout response st with
          | (Break, st) => (Ok tt, script', st)
          | (Continue, st) =>
              loop self k callback params timeout script' st
          | (Raise e, st) => (Exc e, script', st)
          end
      | (Exc e, st) => (Exc e, script', st)
      | (Blocked, st) => (Blocked, script', st)
      end
  end.

(** The closure [subscription] that the thread runs. *)
Definition subscription (self : TBHTTPClient) (k : kind)
    (callback : json -> option exn) (params : list (string * json))
    (timeout : option Z) : M unit :=
  act (event_clear k) ;;;
  act (logger INFO (start_message k)) ;;;
  loop self k callback params timeout ;;;
  act (event_clear k) ;;;
  act (logger INFO (stop_message k)).

Definition subscribe (self : TBHTTPClient) (k : kind) (thread_name : string)
    (callback : json -> option exn) (timeout : option Z) (st : state)
    : Thread * state :=
  let params := poll_params timeout in
  let t := {| thread_name := thread_name;
              target := subscription self k callback params timeout;
              daemon := true |} in
  (t, emit (Start thread_name)
        (update k (fun s => {| event := event s;
                               thread := Some thread_name |}) st)).

Definition subscribe_to_attributes (self : TBHTTPClient)
    (callback : json -> option exn) (timeout : option Z)
    : state -> Thread * state :=
  subscribe self attributes "subscribe_attributes" callback timeout.

Definition subscribe_to_rpc (self : TBHTTPClient)
    (callback : json -> option exn) (timeout : option Z)
    : state -> Thread * state :=
  subscribe self rpc "subscribe_rpc" callback timeout.

(** The subscribe operation of kind [k]. *)
Definition subscribe_to (k : kind) (self : TBHTTPClient)
    (callback : json -> option exn) (timeout : option Z)
    : state -> Thread * state :=
  match k with
  | attributes => subscribe_to_attributes self callback timeout
  | rpc => subscribe_to_rpc self callback timeout
  end.

(** The state in which the loop tests [is_set]: its GET has been issued
    and exchange [x] has completed. *)
Definition polled (self : TBHTTPClient) (k : kind)
    (params : list (string * json)) (x : exchange) (st : state) : state :=
  snd (arrive x (emit (Get (poll_url self k) params) st)).

(** *** Provisioning *)

Definition provision (host device_name device_key device_secret : string)
    : M TBHTTPClient :=
  let data := JDict [("deviceName", JStr device_name);
                     ("provisionDeviceKey", JStr device_key);
                     ("provisionDeviceSecret", JStr device_secret)] in
  response <- request (Post [Lit host; Lit "/api/v1/provision"] data) ;;
  check (raise_for_status response) ;;;
  device <- response_json response ;;
  status <- lift (getitem device "status") ;;
  success <-
    (if eq_str status "SUCCESS" then
       credentials <- lift (getitem device "credentialsType") ;;
       ret (eq_str credentials "ACCESS_TOKEN")
     else ret false) ;;
  if (success : bool) then
    value <- lift (getitem device "credentialsValue") ;;
    init host value (Some device_name)
  else raise (TBProvisionFailure device).

(** *** The rest of the class, and vocabulary for whole runs *)

(** [TBHTTPClient.__repr__]:
    [f'<ThingsBoard ({self.host}) HTTP client {self.name}>']. *)
Definition repr (self : TBHTTPClient) : fstring :=
  [Lit "<ThingsBoard ("; Lit (host self); Lit ") HTTP client ";
   Fmt (match name self with Some n => JStr n | None => JNull end);
   Lit ">"].

(** The exchanges of the schedule that a run has not read. *)
Definition unread {A} (run : res A * list exchange * state) : list exchange :=
  snd (fst run).

(** The statuses for which [raise_for_status] raises. *)
Definition error_status (r : Response) : Prop := 400 <= status_code r < 600.

(** The JSON body that [provision] posts. *)
Definition provision_request (device_name device_key device_secret : string)
    : json :=
  JDict [("deviceName", JStr device_name);
         ("provisionDeviceKey", JStr device_key);
         ("provisionDeviceSecret", JStr device_secret)].

(** Exchange [x] hands the value [v] to the loop of kind [k]: no thread
    asks that loop to stop, the answer is not an error, its body decodes
    to [v], and the callback returns from [v]. *)
Definition delivers (k : kind) (callback : json -> option exn)
    (x : exchange) (v : json) : Prop :=
  ~ In k (during x)
  /\ exists r,
      outcome x = Answer r
      /\ ~ error_status r
      /\ json_loads (content r) = Some v
      /\ callback v = None.

(** What a loop adds to the trace while it hands over the values [vs]. *)
Fixpoint deliveries (url : fstring) (params : list (string * json))
    (vs : list json) : list effect :=
  match vs with
  | [] => []
  | v :: vs' => Get url params :: Callback v :: deliveries url params vs'
  end.

Definition is_get (e : effect) : bool :=
  match e with Get _ _ => true | _ => false end.

(** Two exchanges that the loop of kind [k] cannot tell apart: the same
    outcome, and the same answer to whether [unsubscribe_from k] was
    called meanwhile. *)
Definition alike (k : kind) (x y : exchange) : Prop :=
  outcome x = outcome y
  /\ existsb (kind_eqb k) (during x) = existsb (kind_eqb k) (during y).

(** Exchange [x] without the calls to [unsubscribe_from j]. *)
Definition without_calls (j : kind) (x : exchange) : exchange :=
  {| during := filter (fun i => negb (kind_eqb j i)) (during x);
     outcome := outcome x |}.

(** The effects of a thread body of kind [k]: its two log records, its
    GET and callbacks. *)
Definition thread_effect (self : TBHTTPClient) (k : kind)
    (params : list (string * json)) (e : effect) : Prop :=
  e = Log INFO (start_message k) \/ e = Log INFO (stop_message k)
  \/ e = Get (poll_url self k) params \/ exists v, e = Callback v.

(** The state in which a thread body of kind [k] enters its loop. *)
Definition started (k : kind) (st : state) : state :=
  logger INFO (start_message k) (event_clear k st).

(** Whole seconds from the epoch to the calendar fields of [timestamp]
    read as UTC, its microseconds left aside. *)
Definition epoch_seconds (timestamp : Datetime.datetime) : Z :=
  Datetime.ymd2ord (Datetime.year timestamp) (Datetime.month timestamp)
    (Datetime.day timestamp) * 86400
  + Datetime.hour timestamp * 3600 + Datetime.minute timestamp * 60
  + Datetime.second timestamp - 62135683200.

(** ** Plain requests: status codes and bodies *)

Lemma raise_for_status_2xx (r : Response) :
  is_2xx r -> raise_for_status r = None.
Proof.
  unfold is_2xx, raise_for_status. intros [_ Hhi].
  destruct (status_code r <? 600) eqn:Hlt, (400 <=? status_code r) eqn:Hge;
    simpl; try reflexivity; lia.
Qed.

Lemma raise_for_status_error (r : Response) :
  400 <= status_code r < 600 -> raise_for_status r = Some (HTTPError r).
Proof.
  unfold raise_for_status. intros [Hlo Hhi].
  apply Z.leb_le in Hlo. apply Z.ltb_lt in Hhi.
  rewrite Hlo, Hhi. reflexivity.
Qed.

Lemma request_answer (e : effect) (x : exchange) (r : Response)
    (script : list exchange) (st : state) :
  outcome x = Answer r ->
  request e (x :: script) st = (Ok r, script, snd (arrive x (emit e st))).
Proof. unfold request, arrive. intros ->. reflexivity. Qed.

Lemma nonempty_false (s : string) : nonempty s = false <-> s = EmptyString.
Proof. destruct s; simpl; split; congruence. Qed.

(** What [publish_data] and [get_data] do once the server has answered. *)
Lemma publish_data_answer (self : TBHTTPClient) (data : json)
    (endpoint : string) (x : exchange) (script : list exchange)
    (st : state) (r : Response) :
  outcome x = Answer r ->
  result (publish_data self data endpoint (x :: script) st)
  = match raise_for_status r with
    | Some e => Exc e
    | None =>
        if nonempty (content r) then
          match json_loads (content r) with
          | Some v => Ok v
          | None => Exc JSONDecodeError
          end
        else Ok (JDict [])
    end.
Proof.
  intros Hx. unfold publish_data, bind.
  rewrite (request_answer _ _ _ _ _ Hx).
  destruct (raise_for_status r); simpl; [reflexivity|].
  destruct (nonempty (content r)); [|reflexivity].
  unfold response_json. destruct (json_loads (content r)); reflexivity.
Qed.

Lemma get_data_answer (self : TBHTTPClient) (params : list (string * json))
    (endpoint : string) (x : exchange) (script : list exchange)
    (st : state) (r : Response) :
  outcome x = Answer r ->
  result (get_data self params endpoint (x :: script) st)
  = match raise_for_status r with
    | Some e => Exc e
    | None =>
        match json_loads (content r) with
        | Some v => Ok v
        | None => Exc JSONDecodeError
        end
    end.
Proof.
  intros Hx. unfold get_data, bind.
  rewrite (request_answer _ _ _ _ _ Hx).
  destruct (raise_for_status r); simpl; [reflexivity|].
  unfold response_json. destruct (json_loads (content r)); reflexivity.
Qed.

(** C7. On a 2xx answer [publish_data] returns the decoded JSON body,
    and on an empty 2xx body it returns the empty mapping [{}]: the
    decoder is not consulted, so no decode error can arise. *)
Theorem publish_data_returns_decoded_body :
  forall (self : TBHTTPClient) (data : json) (endpoint : string)
         (x : exchange) (script : list exchange) (st : state) (r : Response),
    outcome x = Answer r ->
    is_2xx r ->
    (content r = EmptyString ->
     result (publish_data self data endpoint (x :: script) st)
     = Ok (JDict []))
    /\ (forall v, content r <> EmptyString ->
                  json_loads (content r) = Some v ->
                  result (publish_data self data endpoint (x :: script) st)
                  = Ok v).
Proof.
  intros self data endpoint x script st r Hx H2.
  rewrite (publish_data_answer _ _ _ _ _ _ _ Hx),
    (raise_for_status_2xx _ H2).
  split.
  - intros ->. reflexivity.
  - intros v Hne Hv. destruct (nonempty (content r)) eqn:Hn.
    + rewrite Hv. reflexivity.
    + apply nonempty_false in Hn. contradiction.
Qed.

(** C9. On a 2xx answer [get_data] always runs the decoder on the body.
    With a decoder that rejects the empty document, as [json.loads]
    does, an empty 2xx body makes [get_data] raise the decode error,
    where [publish_data] returns [{}]. *)
Theorem get_data_always_decodes :
  forall (self : TBHTTPClient) (params : list (string * json))
         (data : json) (endpoint : string)
         (x : exchange) (script : list exchange) (st : state) (r : Response),
    json_loads EmptyString = None ->
    outcome x = Answer r ->
    is_2xx r ->
    result (get_data self params endpoint (x :: script) st)
    = match json_loads (content r) with
      | Some v => Ok v
      | None => Exc JSONDecodeError
      end
    /\ (content r = EmptyString ->
        result (get_data self params endpoint (x :: script) st)
        = Exc JSONDecodeError
        /\ result (publish_data self data endpoint (x :: script) st)
           = Ok (JDict [])).
Proof.
  intros self params data endpoint x script st r Hempty Hx H2.
  rewrite (get_data_answer _ _ _ _ _ _ _ Hx),
    (publish_data_answer _ _ _ _ _ _ _ Hx), (raise_for_status_2xx _ H2).
  split; [reflexivity|].
  intros ->. rewrite Hempty. split; reflexivity.
Qed.

(** C2, as the code has it.  When the server answers with a status in
    [400, 600), [publish_data] and [get_data] raise the [HTTPError] of
    [raise_for_status], which carries the whole response (status and
    body).  That exception is not a [TBHTTPAPIException]. *)
Theorem error_status_raises_HTTPError :
  forall (self : TBHTTPClient) (data : json) (params : list (string * json))
         (endpoint : string) (x : exchange) (script : list exchange)
         (st : state) (r : Response),
    outcome x = Answer r ->
    400 <= status_code r < 600 ->
    result (publish_data self data endpoint (x :: script) st)
    = Exc (HTTPError r)
    /\ result (get_data self params endpoint (x :: script) st)
       = Exc (HTTPError r)
    /\ is_TBHTTPAPIException (HTTPError r) = false.
Proof.
  intros self data params endpoint x script st r Hx Hs.
  rewrite (get_data_answer _ _ _ _ _ _ _ Hx),
    (publish_data_answer _ _ _ _ _ _ _ Hx), (raise_for_status_error _ Hs).
  repeat split; reflexivity.
Qed.

(** ** Provisioning *)

Lemma eq_str_true (v : json) (s : string) :
  eq_str v s = true <-> v = JStr s.
Proof.
  destruct v; simpl; try (split; congruence).
  rewrite String.eqb_eq. split; congruence.
Qed.

Lemma eq_str_false (v : json) (s : string) :
  v <> JStr s -> eq_str v s = false.
Proof.
  intros Hne. destruct (eq_str v s) eqn:He; [|reflexivity].
  apply eq_str_true in He. contradiction.
Qed.

(** [provision] after a 2xx answer whose body decodes to a mapping. *)
Lemma provision_answer (host device_name device_key device_secret : string)
    (x : exchange) (script : list exchange) (st : state) (r : Response)
    (device : list (string * json)) :
  outcome x = Answer r ->
  is_2xx r ->
  json_loads (content r) = Some (JDict device) ->
  result (provision host device_name device_key device_secret
            (x :: script) st)
  = match dict_get device "status" with
    | None => Exc (KeyError "status")
    | Some status =>
        if eq_str status "SUCCESS" then
          match dict_get device "credentialsType" with
          | None => Exc (KeyError "credentialsType")
          | Some credentials =>
              if eq_str credentials "ACCESS_TOKEN" then
                match dict_get device "credentialsValue" with
                | None => Exc (KeyError "credentialsValue")
                | Some value =>
                    Ok {| host := host; token := value;
                          name := Some device_name;
                          api_base_url :=
                            [Lit host; Lit "/api/v1/"; Fmt value] |}
                end
              else Exc (TBProvisionFailure (JDict device))
          end
        else Exc (TBProvisionFailure (JDict device))
    end.
Proof.
  intros Hx H2 Hjson. unfold provision, bind.
  rewrite (request_answer _ _ _ _ _ Hx), (raise_for_status_2xx _ H2).
  simpl. unfold response_json. rewrite Hjson. simpl. unfold lift. simpl.
  destruct (dict_get device "status") as [status|]; [|reflexivity].
  destruct (eq_str status "SUCCESS"); simpl; [|reflexivity].
  destruct (dict_get device "credentialsType") as [credentials|];
    [|reflexivity].
  simpl. destruct (eq_str credentials "ACCESS_TOKEN"); [|reflexivity].
  destruct (dict_get device "credentialsValue"); reflexivity.
Qed.

(** C3, as the code has it.  After a 2xx provisioning answer:
    - a body that decodes to a mapping with status 'SUCCESS',
      credentialsType 'ACCESS_TOKEN' and a credentialsValue makes
      [provision] return a client whose token is that value and whose
      name is the given device name;
    - a mapping with any other status, or with status 'SUCCESS' and any
      other credentialsType, makes it raise [TBProvisionFailure]
      carrying the whole decoded body;
    - a mapping that lacks the field being read raises [KeyError], a JSON
      value that is not a mapping raises [TypeError], and a body that is
      not JSON raises the decode error. *)
Theorem provision_returns_client_or_fails :
  forall (host device_name device_key device_secret : string)
         (x : exchange) (script : list exchange) (st : state) (r : Response),
    outcome x = Answer r ->
    is_2xx r ->
    (forall device,
        json_loads (content r) = Some (JDict device) ->
        (forall value,
            dict_get device "status" = Some (JStr "SUCCESS") ->
            dict_get device "credentialsType" = Some (JStr "ACCESS_TOKEN") ->
            dict_get device "credentialsValue" = Some value ->
            exists c,
              result (provision host device_name device_key device_secret
                        (x :: script) st) = Ok c
              /\ token c = value /\ name c = Some device_name)
        /\ (forall status,
               dict_get device "status" = Some status ->
               status <> JStr "SUCCESS" ->
               result (provision host device_name device_key device_secret
                         (x :: script) st)
               = Exc (TBProvisionFailure (JDict device)))
        /\ (forall credentials,
               dict_get device "status" = Some (JStr "SUCCESS") ->
               dict_get device "credentialsType" = Some credentials ->
               credentials <> JStr "ACCESS_TOKEN" ->
               result (provision host device_name device_key device_secret
                         (x :: script) st)
               = Exc (TBProvisionFailure (JDict device)))
        /\ (dict_get device "status" = None ->
            result (provision host device_name device_key device_secret
                      (x :: script) st) = Exc (KeyError "status"))
        /\ (dict_get device "status" = Some (JStr "SUCCESS") ->
            dict_get device "credentialsType" = None ->
            result (provision host device_name device_key device_secret
                      (x :: script) st) = Exc (KeyError "credentialsType"))
        /\ (dict_get device "status" = Some (JStr "SUCCESS") ->
            dict_get device "credentialsType" = Some (JStr "ACCESS_TOKEN") ->
            dict_get device "credentialsValue" = None ->
            result (provision host device_name device_key device_secret
                      (x :: script) st) = Exc (KeyError "credentialsValue")))
    /\ (forall v,
           json_loads (content r) = Some v ->
           (forall device, v <> JDict device) ->
           result (provision host device_name device_key device_secret
                     (x :: script) st) = Exc TypeError)
    /\ (json_loads (content r) = None ->
        result (provision host device_name device_key device_secret
                  (x :: script) st) = Exc JSONDecodeError).
Proof.
  intros host0 device_name device_key device_secret x script st r Hx H2.
  split; [|split].
  - intros device Hjson.
    rewrite (provision_answer _ _ _ _ _ _ _ _ _ Hx H2 Hjson).
    split; [|split; [|split; [|split; [|split]]]].
    + intros value Hs Hc Hv. rewrite Hs, Hc, Hv. simpl.
      eexists. repeat split.
    + intros status Hs Hne. rewrite Hs, (eq_str_false _ _ Hne). reflexivity.
    + intros credentials Hs Hc Hne. rewrite Hs, Hc. simpl.
      rewrite (eq_str_false _ _ Hne). reflexivity.
    + intros ->. reflexivity.
    + intros -> ->. reflexivity.
    + intros -> -> ->. reflexivity.
  - intros v Hv Hnd. unfold provision, bind.
    rewrite (request_answer _ _ _ _ _ Hx), (raise_for_status_2xx _ H2).
    simpl. unfold response_json. rewrite Hv. simpl. unfold lift.
    destruct v; try reflexivity. exfalso. apply (Hnd items). reflexivity.
  - intros Hv. unfold provision, bind.
    rewrite (request_answer _ _ _ _ _ Hx), (raise_for_status_2xx _ H2).
    simpl. unfold response_json. rewrite Hv. reflexivity.
Qed.

(** ** The stop signal *)

Lemma trace_unsubscribe_from (k : kind) (st : state) :
  trace (unsubscribe_from k st) = trace st.
Proof. destruct k; reflexivity. Qed.

Lemma is_set_unsubscribe_from (k : kind) (st : state) :
  is_set k (unsubscribe_from k st) = true.
Proof. destruct k; reflexivity. Qed.

Lemma is_set_unsubscribe_from_other (k k' : kind) (st : state) :
  is_set k st = true -> is_set k (unsubscribe_from k' st) = true.
Proof.
  unfold is_set, unsubscribe_from, event_set, update, logger. simpl.
  intros H. destruct (kind_eqb k' k); [reflexivity | exact H].
Qed.

Lemma is_set_event_clear (k : kind) (st : state) :
  is_set k (event_clear k st) = false.
Proof. destruct k; reflexivity. Qed.

Lemma is_set_logger (k : kind) (lvl : level) (msg : string) (st : state) :
  is_set k (logger lvl msg st) = is_set k st.
Proof. unfold logger. destruct (enabled lvl); reflexivity. Qed.

Lemma trace_calls (ks : list kind) (st : state) :
  trace (calls ks st) = trace st.
Proof.
  revert st. induction ks as [|k ks IH]; intros st; simpl; [reflexivity|].
  unfold calls in IH. rewrite IH. apply trace_unsubscribe_from.
Qed.

Lemma is_set_calls_keeps (k : kind) (ks : list kind) (st : state) :
  is_set k st = true -> is_set k (calls ks st) = true.
Proof.
  revert st. induction ks as [|k' ks IH]; intros st H; simpl; [exact H|].
  apply IH, is_set_unsubscribe_from_other, H.
Qed.

Lemma is_set_calls_in (k : kind) (ks : list kind) (st : state) :
  In k ks -> is_set k (calls ks st) = true.
Proof.
  revert st. induction ks as [|k' ks IH]; intros st Hin; simpl in *.
  - contradiction.
  - destruct Hin as [-> | Hin].
    + apply is_set_calls_keeps, is_set_unsubscribe_from.
    + apply IH, Hin.
Qed.

Lemma arrive_state (x : exchange) (st : state) :
  snd (arrive x st) = calls (during x) st.
Proof. unfold arrive, calls. destruct (outcome x); reflexivity. Qed.

Lemma trace_arrive (x : exchange) (st : state) :
  trace (snd (arrive x st)) = trace st.
Proof. rewrite arrive_state. apply trace_calls. Qed.

Lemma arrive_eq (x : exchange) (r : Response) (st : state) :
  outcome x = Answer r -> arrive x st = (Ok r, snd (arrive x st)).
Proof. unfold arrive. intros ->. reflexivity. Qed.

(** ** One pass of a long-poll loop *)

Section Loop.

Variable self : TBHTTPClient.
Variable k : kind.
Variable callback : json -> option exn.
Variable params : list (string * json).
Variable timeout : option Z.

Lemma trace_polled (x : exchange) (st : state) :
  trace (polled self k params x st) = (trace st ++ [Get (poll_url self k) params])%list.
Proof. unfold polled. rewrite trace_arrive. reflexivity. Qed.

Lemma loop_cons (x : exchange) (script : list exchange) (st : state)
    (r : Response) :
  outcome x = Answer r ->
  loop self k callback params timeout (x :: script) st
  = match iteration k callback timeout r (polled self k params x st) with
    | (Break, st') => (Ok tt, script, st')
    | (Continue, st') => loop self k callback params timeout script st'
    | (Raise e, st') => (Exc e, script, st')
    end.
Proof.
  intros Hx. simpl. unfold polled.
  rewrite (arrive_eq _ _ _ Hx). reflexivity.
Qed.

Lemma iteration_trace (r : Response) (st : state) :
  exists more,
    trace (snd (iteration k callback timeout r st))
    = (trace st ++ more)%list
    /\ Forall (poll_effect (poll_url self k) params) more.
Proof.
  unfold iteration.
  destruct (is_set k st);
    [exists []; simpl; rewrite app_nil_r; split; [reflexivity|constructor]|].
  destruct ((status_code r =? 408) && truthy_timeout timeout);
    [exists []; simpl; rewrite app_nil_r; split; [reflexivity|constructor]|].
  destruct (status_code r =? 504);
    [exists []; simpl; rewrite app_nil_r; split; [reflexivity|constructor]|].
  destruct (raise_for_status r);
    [exists []; simpl; rewrite app_nil_r; split; [reflexivity|constructor]|].
  destruct (json_loads (content r)) as [v|];
    [|exists []; simpl; rewrite app_nil_r; split; [reflexivity|constructor]].
  exists [Callback v].
  split; [destruct (callback v); reflexivity|].
  constructor; [right; exists v; reflexivity | constructor].
Qed.

(** Every run of the loop first issues its GET, and adds nothing to
    the trace but GETs with the loop's parameters and callbacks. *)
Lemma loop_trace (script : list exchange) (st : state) :
  exists more,
    trace (final (loop self k callback params timeout script st))
    = (trace st ++ Get (poll_url self k) params :: more)%list
    /\ Forall (poll_effect (poll_url self k) params) more.
Proof.
  revert st. induction script as [|x script IH]; intros st.
  - exists []. split; [reflexivity | constructor].
  - cbn [loop].
    destruct (arrive x (emit (Get (poll_url self k) params) st))
      as [a st1] eqn:Ha.
    assert (Ht : trace st1
                 = (trace st ++ [Get (poll_url self k) params])%list).
    { change st1
        with (snd (a, st1)). rewrite <- Ha. apply trace_arrive. }
    destruct a as [r | e | ].
    + destruct (iteration_trace r st1) as [m1 [Hm1 Hf1]].
      destruct (iteration k callback timeout r st1) as [c st2].
      simpl in Hm1.
      destruct c.
      * exists m1. unfold final; simpl. rewrite Hm1, Ht, <- app_assoc.
        split; [reflexivity | exact Hf1].
      * destruct (IH st2) as [m2 [Hm2 Hf2]].
        exists (m1 ++ Get (poll_url self k) params :: m2)%list.
        rewrite Hm2, Hm1, Ht, <- !app_assoc. split; [reflexivity|].
        apply Forall_app. split; [exact Hf1|].
        constructor; [left; reflexivity | exact Hf2].
      * exists m1. unfold final; simpl. rewrite Hm1, Ht, <- app_assoc.
        split; [reflexivity | exact Hf1].
    + exists []. unfold final; simpl. rewrite Ht.
      split; [reflexivity | constructor].
    + exists []. unfold final; simpl. rewrite Ht.
      split; [reflexivity | constructor].
Qed.

Lemma arrive_cases (x : exchange) (st : state) :
  (exists r, arrive x st = (Ok r, calls (during x) st))
  \/ arrive x st = (Exc ConnectionError, calls (during x) st).
Proof.
  unfold arrive, calls. destruct (outcome x) as [r|];
    [left; exists r; reflexivity | right; reflexivity].
Qed.

(** A loop that is still waiting after the exchanges [pre] goes on with
    the next exchange from the state it was left in. *)
Lemma loop_app_blocked (pre : list exchange) (x : exchange)
    (post : list exchange) (st : state) :
  result (loop self k callback params timeout pre st) = Blocked ->
  loop self k callback params timeout (pre ++ x :: post) st
  = match arrive x (final (loop self k callback params timeout pre st)) with
    | (Ok r, st1) =>
        match iteration k callback timeout r st1 with
        | (Break, st2) => (Ok tt, post, st2)
        | (Continue, st2) => loop self k callback params timeout post st2
        | (Raise e, st2) => (Exc e, post, st2)
        end
    | (Exc e, st1) => (Exc e, post, st1)
    | (Blocked, st1) => (Blocked, post, st1)
    end.
Proof.
  revert st. induction pre as [|y pre IH]; intros st Hb.
  - reflexivity.
  - cbn [app loop] in *.
    destruct (arrive_cases y (emit (Get (poll_url self k) params) st))
      as [[r Hy] | Hy]; rewrite Hy in *.
    + destruct (iteration k callback timeout r
                  (calls (during y) (emit (Get (poll_url self k) params) st)))
        as [[| |e] st2]; try discriminate Hb.
      apply IH, Hb.
    + discriminate Hb.
Qed.

Lemma iteration_stop_set (r : Response) (st : state) :
  is_set k st = true -> iteration k callback timeout r st = (Break, st).
Proof. unfold iteration. intros ->. reflexivity. Qed.

(** C4. In any pass of either loop, when the stop signal is not set at
    the test and the answer has status 504, the pass ends with
    [continue]: nothing is added to the trace (no callback), nothing is
    raised, the loop does not end, and the next thing the loop does is to
    issue its GET again. *)
Theorem gateway_timeout_reissues_get :
  forall (x : exchange) (script : list exchange) (st : state) (r : Response),
    outcome x = Answer r ->
    status_code r = 504 ->
    is_set k (polled self k params x st) = false ->
    iteration k callback timeout r (polled self k params x st)
    = (Continue, polled self k params x st)
    /\ trace (polled self k params x st)
       = (trace st ++ [Get (poll_url self k) params])%list
    /\ loop self k callback params timeout (x :: script) st
       = loop self k callback params timeout script
           (polled self k params x st)
    /\ exists more,
        trace (final (loop self k callback params timeout (x :: script) st))
        = (trace st ++ Get (poll_url self k) params
             :: Get (poll_url self k) params :: more)%list.
Proof.
  intros x script st r Hx H504 Hunset.
  assert (Hit : iteration k callback timeout r (polled self k params x st)
                = (Continue, polled self k params x st)).
  { unfold iteration. rewrite Hunset, H504. reflexivity. }
  assert (Hloop : loop self k callback params timeout (x :: script) st
                  = loop self k callback params timeout script
                      (polled self k params x st)).
  { rewrite (loop_cons x script st r Hx), Hit. reflexivity. }
  repeat split; [exact Hit | apply trace_polled | exact Hloop |].
  destruct (loop_trace script (polled self k params x st)) as [more [Hm _]].
  exists more. rewrite Hloop, Hm, trace_polled, <- app_assoc. reflexivity.
Qed.

(** C5, as the code has it.  In any pass of either loop, when the stop
    signal is not set at the test, a nonzero timeout was given to
    subscribe and the answer has status 408, the pass ends with [break]:
    the loop returns without an exception, having added only its GET to
    the trace (no callback), and the thread's body then returns too. *)
Theorem request_timeout_ends_loop :
  forall (x : exchange) (script : list exchange) (st : state) (r : Response)
         (t : Z),
    timeout = Some t ->
    t <> 0 ->
    outcome x = Answer r ->
    status_code r = 408 ->
    is_set k (polled self k params x st) = false ->
    iteration k callback timeout r (polled self k params x st)
    = (Break, polled self k params x st)
    /\ loop self k callback params timeout (x :: script) st
       = (Ok tt, script, polled self k params x st)
    /\ trace (polled self k params x st)
       = (trace st ++ [Get (poll_url self k) params])%list
    /\ result (subscription self k callback params timeout (x :: script) st)
       = Ok tt.
Proof.
  intros x script st r t Ht Hnz Hx H408 Hunset.
  assert (Htruthy : truthy_timeout timeout = true).
  { rewrite Ht. simpl. apply Z.eqb_neq in Hnz. rewrite Hnz. reflexivity. }
  assert (Hit : forall s, is_set k s = false ->
                          iteration k callback timeout r s = (Break, s)).
  { intros s Hs. unfold iteration. rewrite Hs, H408, Htruthy. reflexivity. }
  repeat split.
  - apply Hit, Hunset.
  - rewrite (loop_cons x script st r Hx), (Hit _ Hunset). reflexivity.
  - apply trace_polled.
  - unfold subscription, bind, act. simpl.
    rewrite (arrive_eq _ _ _ Hx). rewrite Hit; [reflexivity|].
    rewrite arrive_state.
    destruct (is_set k (calls (during x)
                (emit (Get (poll_url self k) params)
                   (logger INFO (start_message k) (event_clear k st)))))
      eqn:Hs; [|reflexivity].
    exfalso. revert Hunset Hs. unfold polled. rewrite arrive_state.
    clear. generalize (during x) as ks. intros ks.
    unfold is_set.
    assert (Hind : forall ks a b,
               (event (subscriptions a k) = true ->
                event (subscriptions b k) = true) ->
               event (subscriptions (calls ks a) k) = true ->
               event (subscriptions (calls ks b) k) = true).
    { clear. induction ks as [|k' ks IH]; intros a b Hab; simpl; [exact Hab|].
      apply IH. unfold unsubscribe_from, event_set, update, logger. simpl.
      destruct (kind_eqb k' k); [reflexivity | exact Hab]. }
    intros Hunset Hs.
    apply (Hind ks _ (emit (Get (poll_url self k) params) st)) in Hs;
      [congruence|].
    destruct k; simpl; discriminate.
Qed.

(** C6. Once [unsubscribe_from_*] has set a loop's stop signal, at any
    moment since the loop last tested it, the loop ends when the one GET
    then pending returns: the pass takes [break] at the test, nothing is
    added to the trace after that GET (no callback, no further request),
    no later exchange is read, and the loop returns without an
    exception. *)
Theorem unsubscribe_stops_loop :
  forall (pre : list exchange) (x : exchange) (post : list exchange)
         (st : state) (r : Response),
    outcome x = Answer r ->
    result (loop self k callback params timeout pre st) = Blocked ->
    is_set k (final (loop self k callback params timeout pre st)) = true
    \/ In k (during x) ->
    (forall s, is_set k (unsubscribe_from k s) = true)
    /\ iteration k callback timeout r
         (snd (arrive x (final (loop self k callback params timeout pre st))))
       = (Break,
          snd (arrive x (final (loop self k callback params timeout pre st))))
    /\ loop self k callback params timeout (pre ++ x :: post) st
       = (Ok tt, post,
          snd (arrive x (final (loop self k callback params timeout pre st))))
    /\ trace (final (loop self k callback params timeout (pre ++ x :: post) st))
       = trace (final (loop self k callback params timeout pre st)).
Proof.
  intros pre x post st r Hx Hb Hset.
  set (waiting := final (loop self k callback params timeout pre st)) in *.
  assert (Hs : is_set k (snd (arrive x waiting)) = true).
  { rewrite arrive_state. destruct Hset as [H | H].
    - apply is_set_calls_keeps, H.
    - apply is_set_calls_in, H. }
  assert (Hloop : loop self k callback params timeout (pre ++ x :: post) st
                  = (Ok tt, post, snd (arrive x waiting))).
  { rewrite (loop_app_blocked pre x post st Hb). fold waiting.
    rewrite (arrive_eq _ _ _ Hx), (iteration_stop_set _ _ Hs). reflexivity. }
  repeat split.
  - apply is_set_unsubscribe_from.
  - apply iteration_stop_set, Hs.
  - exact Hloop.
  - rewrite Hloop. unfold final; simpl. apply trace_arrive.
Qed.

End Loop.

(** ** The thread body as a whole *)

Lemma subscription_unfold (self : TBHTTPClient) (k : kind)
    (callback : json -> option exn) (params : list (string * json))
    (timeout : option Z) (script : list exchange) (st : state) :
  subscription self k callback params timeout script st
  = match loop self k callback params timeout script
            (logger INFO (start_message k) (event_clear k st)) with
    | (Ok _, script', st') =>
        (Ok tt, script', logger INFO (stop_message k) (event_clear k st'))
    | (Exc e, script', st') => (Exc e, script', st')
    | (Blocked, script', st') => (Blocked, script', st')
    end.
Proof.
  unfold subscription, bind, act.
  destruct (loop self k callback params timeout script
              (logger INFO (start_message k) (event_clear k st)))
    as [[[u | e | ] script'] st']; reflexivity.
Qed.

Lemma iteration_zero_timeout (k : kind) (callback : json -> option exn)
    (r : Response) (st : state) :
  iteration k callback (Some 0) r st = iteration k callback None r st.
Proof. reflexivity. Qed.

Lemma loop_zero_timeout (self : TBHTTPClient) (k : kind)
    (callback : json -> option exn) (params : list (string * json))
    (script : list exchange) (st : state) :
  loop self k callback params (Some 0) script st
  = loop self k callback params None script st.
Proof.
  revert st. induction script as [|x script IH]; intros st; [reflexivity|].
  cbn [loop].
  destruct (arrive x (emit (Get (poll_url self k) params) st))
    as [[r | e | ] st1]; try reflexivity.
  rewrite iteration_zero_timeout.
  destruct (iteration k callback None r st1) as [[| |e] st2];
    try reflexivity.
  apply IH.
Qed.

Lemma subscribe_zero_timeout (self : TBHTTPClient) (k : kind)
    (thread_name : string) (callback : json -> option exn) (st : state) :
  same_thread (subscribe self k thread_name callback (Some 0) st)
              (subscribe self k thread_name callback None st).
Proof.
  unfold same_thread, subscribe. simpl. repeat split.
  intros script st'. rewrite !subscription_unfold, loop_zero_timeout.
  reflexivity.
Qed.

Lemma subscription_without_params (self : TBHTTPClient) (k : kind)
    (callback : json -> option exn) (timeout : option Z)
    (script : list exchange) (st : state) :
  exists more,
    trace (final (subscription self k callback [] timeout script st))
    = (trace st ++ more)%list
    /\ Forall without_params more.
Proof.
  rewrite subscription_unfold.
  destruct (loop_trace self k callback [] timeout script
              (logger INFO (start_message k) (event_clear k st)))
    as [more [Hm Hf]].
  assert (Hw : Forall without_params
                 (Log INFO (start_message k) :: Get (poll_url self k) []
                    :: more)).
  { constructor; [intros url params H; discriminate H|].
    constructor; [intros url params H; injection H as _ <-; reflexivity|].
    eapply Forall_impl; [|exact Hf].
    intros e [-> | [v ->]] url params H;
      [injection H as _ <-; reflexivity | discriminate H]. }
  destruct (loop self k callback [] timeout script
              (logger INFO (start_message k) (event_clear k st)))
    as [[[u | e | ] script'] st']; unfold final in *; simpl in *.
  - exists (Log INFO (start_message k) :: Get (poll_url self k) []
              :: more ++ [Log INFO (stop_message k)])%list.
    rewrite Hm, <- !app_assoc. split; [reflexivity|].
    change (Forall without_params
              ((Log INFO (start_message k) :: Get (poll_url self k) []
                  :: more) ++ [Log INFO (stop_message k)])%list).
    apply Forall_app. split; [exact Hw|].
    constructor; [intros url params H; discriminate H | constructor].
  - exists (Log INFO (start_message k) :: Get (poll_url self k) [] :: more).
    rewrite Hm, <- !app_assoc. split; [reflexivity | exact Hw].
  - exists (Log INFO (start_message k) :: Get (poll_url self k) [] :: more).
    rewrite Hm, <- !app_assoc. split; [reflexivity | exact Hw].
Qed.

(** ** Doubles: rounding keeps bounded values finite *)

Lemma digits2_pos_bound (p : positive) :
  forall K, 0 <= K -> Zpos p < 2 ^ K -> Zpos (digits2_pos p) <= K.
Proof.
  induction p as [p IH | p IH |]; intros K HK Hlt; cbn [digits2_pos].
  - assert (K <> 0) by (intros ->; simpl in Hlt; lia).
    replace K with (Z.succ (K - 1)) in Hlt by lia.
    rewrite Z.pow_succ_r in Hlt by lia.
    specialize (IH (K - 1)). lia.
  - assert (K <> 0) by (intros ->; simpl in Hlt; lia).
    replace K with (Z.succ (K - 1)) in Hlt by lia.
    rewrite Z.pow_succ_r in Hlt by lia.
    specialize (IH (K - 1)). lia.
  - assert (K <> 0) by (intros ->; simpl in Hlt; lia). lia.
Qed.

Lemma Zdigits2_bound (m K : Z) :
  0 <= K -> 0 <= m < 2 ^ K -> 0 <= Zdigits2 m <= K.
Proof.
  intros HK [H0 Hlt]. destruct m as [|p|p]; simpl; try lia.
  pose proof (digits2_pos_bound p K HK Hlt). lia.
Qed.













(** ** Telemetry timestamps *)

Lemma days_before_month_bound (y m : Z) :
  1 <= m <= 12 -> 0 <= Datetime.days_before_month y m <= 335.
Proof.
  intros Hm. unfold Datetime.days_before_month.
  assert (Hc : m = 1 \/ m = 2 \/ m = 3 \/ m = 4 \/ m = 5 \/ m = 6 \/ m = 7
               \/ m = 8 \/ m = 9 \/ m = 10 \/ m = 11 \/ m = 12) by lia.
  destruct (Datetime.is_leap y);
    repeat (destruct Hc as [-> | Hc]; [simpl; lia|]); subst m; simpl; lia.
Qed.

Lemma days_in_month_bound (y m : Z) : Datetime.days_in_month y m <= 31.
Proof.
  unfold Datetime.days_in_month.
  destruct (Datetime.is_leap y), m as [|p|p]; try lia;
    repeat (destruct p as [p|p|]; try lia).
Qed.

(** A valid datetime lies within [2^59] microseconds of the epoch. *)
Lemma epoch_microseconds_bound (t : Datetime.datetime) :
  Datetime.valid t = true ->
  - 2 ^ 59 < epoch_microseconds t < 2 ^ 59.
Proof.
  unfold Datetime.valid. intros Hv.
  repeat (apply andb_prop in Hv; destruct Hv as [Hv ?]).
  repeat match goal with
         | H : (_ <=? _) = true |- _ => apply Z.leb_le in H
         | H : (_ <? _) = true |- _ => apply Z.ltb_lt in H
         end.
  pose proof (days_in_month_bound (Datetime.year t) (Datetime.month t)).
  pose proof (days_before_month_bound (Datetime.year t) (Datetime.month t)
                ltac:(lia)).
  change (2 ^ 59) with 576460752303423488.
  unfold epoch_microseconds, Datetime.sub, Datetime.wall_microseconds,
    Datetime.utcoffset, Datetime.ymd2ord, Datetime.days_before_year.
  simpl. unfold Datetime.utc.
  generalize dependent
    (Datetime.days_before_month (Datetime.year t) (Datetime.month t)).
  generalize dependent
    (Datetime.days_in_month (Datetime.year t) (Datetime.month t)).
  intros dim Hd Hdim b Hb.
  set (y := Datetime.year t - 1) in *.
  assert (Hq4 : 0 <= y / 4 <= 2500)
    by (split; [apply Z.div_pos | apply Z.div_le_upper_bound]; lia).
  assert (Hq100 : 0 <= y / 100 <= 100)
    by (split; [apply Z.div_pos | apply Z.div_le_upper_bound]; lia).
  assert (Hq400 : 0 <= y / 400 <= 25)
    by (split; [apply Z.div_pos | apply Z.div_le_upper_bound]; lia).
  assert (Hy : 0 <= y <= 9998) by (unfold y; lia).
  clearbody y.
  generalize dependent (y / 4). generalize dependent (y / 100).
  generalize dependent (y / 400). intros. lia.
Qed.


Lemma publish_data_final (self : TBHTTPClient) (data : json)
    (endpoint : string) (script : list exchange) (st : state) :
  trace (final (publish_data self data endpoint script st))
  = (trace st
       ++ [Post (api_base_url self ++ [Lit "/"; Lit endpoint]) data])%list.
Proof.
  unfold publish_data, bind, request.
  destruct script as [|x script]; [reflexivity|].
  pose proof (trace_arrive x
                (emit (Post (api_base_url self ++ [Lit "/"; Lit endpoint])%list
                         data) st)) as Ht.
  destruct (arrive x _) as [[r | e | ] st1]; simpl in Ht;
    try (unfold final; simpl; exact Ht).
  unfold check. destruct (raise_for_status r);
    [unfold final; simpl; exact Ht|].
  unfold ret at 1.
  destruct (nonempty (content r)); [|unfold final; simpl; exact Ht].
  unfold response_json. destruct (json_loads (content r));
    unfold final; simpl; exact Ht.
Qed.

Lemma then_ret_final {A} (m : M A) (script : list exchange) (st : state) :
  final ((m ;;; ret tt) script st) = final (m script st).
Proof.
  unfold bind, ret, final.
  destruct (m script st) as [[[a | e | ] script'] st']; reflexivity.
Qed.


(** ** Further properties of the plain requests *)

Lemma raise_for_status_none (r : Response) :
  raise_for_status r = None <-> ~ error_status r.
Proof.
  unfold raise_for_status, error_status.
  destruct (400 <=? status_code r) eqn:Hlo, (status_code r <? 600) eqn:Hhi;
    simpl; split; intros H; try discriminate; try reflexivity;
    try (exfalso; apply H; split;
         [apply Z.leb_le, Hlo | apply Z.ltb_lt, Hhi]);
    intros [H1 H2]; try (apply Z.leb_le in H1; congruence);
    apply Z.ltb_lt in H2; congruence.
Qed.

Lemma raise_for_status_some (r : Response) (e : exn) :
  raise_for_status r = Some e -> error_status r /\ e = HTTPError r.
Proof.
  intros H. destruct (raise_for_status r) eqn:Hr; [|discriminate].
  assert (He : error_status r).
  { destruct (Z_le_gt_dec 400 (status_code r)) as [Hlo|Hlo];
      destruct (Z_lt_ge_dec (status_code r) 600) as [Hhi|Hhi];
      try (split; assumption);
      exfalso;
      assert (Hn : raise_for_status r = None)
        by (apply raise_for_status_none; unfold error_status; lia);
      congruence. }
  split; [exact He|].
  rewrite (raise_for_status_error r He) in Hr. congruence.
Qed.

(** X1. [publish_data] and [get_data] raise [HTTPError] exactly when the
    answer's status lies in [400, 600): an answer with any other status,
    2xx or not, never makes them raise [HTTPError]. *)
Theorem http_error_iff_error_status :
  forall (self : TBHTTPClient) (data : json) (params : list (string * json))
         (endpoint : string) (x : exchange) (script : list exchange)
         (st : state) (r : Response),
    outcome x = Answer r ->
    (error_status r <->
     exists r', result (publish_data self data endpoint (x :: script) st)
                = Exc (HTTPError r'))
    /\ (error_status r <->
        exists r', result (get_data self params endpoint (x :: script) st)
                   = Exc (HTTPError r')).
Proof.
  intros self data params endpoint x script st r Hx.
  rewrite (get_data_answer _ _ _ _ _ _ _ Hx),
    (publish_data_answer _ _ _ _ _ _ _ Hx).
  destruct (raise_for_status r) as [e|] eqn:Hr.
  - destruct (raise_for_status_some _ _ Hr) as [He ->].
    split; (split; [intros _; exists r; reflexivity | intros _; exact He]).
  - apply raise_for_status_none in Hr.
    split; (split; [intros He; contradiction|]); intros [r' H]; exfalso.
    + destruct (nonempty (content r)); [|discriminate H].
      destruct (json_loads (content r)); discriminate H.
    + destruct (json_loads (content r)); discriminate H.
Qed.

(** X2. A plain request makes one attempt.  Whatever the exchange brings,
    [publish_data] and [get_data] read exactly that exchange, add exactly
    their one request to the trace, and change the stop signals only as
    far as other threads' calls did; a transport failure surfaces as
    [ConnectionError]; with no exchange left the call stays blocked with
    its request sent. *)
Theorem plain_request_footprint :
  forall (self : TBHTTPClient) (data : json) (params : list (string * json))
         (endpoint : string) (x : exchange) (script : list exchange)
         (st : state),
    unread (publish_data self data endpoint (x :: script) st) = script
    /\ final (publish_data self data endpoint (x :: script) st)
       = calls (during x)
           (emit (Post (api_base_url self ++ [Lit "/"; Lit endpoint])%list
                    data) st)
    /\ unread (get_data self params endpoint (x :: script) st) = script
    /\ final (get_data self params endpoint (x :: script) st)
       = calls (during x)
           (emit (Get (api_base_url self ++ [Lit "/"; Lit endpoint])%list
                    params) st)
    /\ (outcome x = Failure ->
        result (publish_data self data endpoint (x :: script) st)
        = Exc ConnectionError
        /\ result (get_data self params endpoint (x :: script) st)
           = Exc ConnectionError)
    /\ publish_data self data endpoint [] st
       = (Blocked, [],
          emit (Post (api_base_url self ++ [Lit "/"; Lit endpoint])%list
                  data) st).
Proof.
  intros self data params endpoint x script st.
  unfold publish_data, get_data, bind, request, unread, final, result.
  rewrite <- !arrive_state. unfold arrive.
  destruct (outcome x) as [r|]; simpl.
  - unfold check. destruct (raise_for_status r); simpl.
    + repeat split; try reflexivity; discriminate.
    + unfold response_json.
      destruct (nonempty (content r)), (json_loads (content r)); simpl;
        repeat split; try reflexivity; discriminate.
  - repeat split.
Qed.

(** X3. [connect], which posts the empty mapping to the telemetry
    endpoint, returns normally exactly when the answer's status is
    outside [400, 600) and its body is empty or decodes as JSON: a 2xx
    answer with any other body makes the probe fail. *)
Theorem connect_succeeds_iff :
  forall (self : TBHTTPClient) (x : exchange) (script : list exchange)
         (st : state) (r : Response),
    outcome x = Answer r ->
    (result (connect self (x :: script) st) = Ok tt
     <-> ~ error_status r
         /\ (content r = EmptyString
             \/ exists v, json_loads (content r) = Some v))
    /\ trace (final (connect self (x :: script) st))
       = (trace st
            ++ [Post (api_base_url self ++ [Lit "/"; Lit "telemetry"])
                  (JDict [])])%list.
Proof.
  intros self x script st r Hx. split.
  - pose proof (publish_data_answer self (JDict []) "telemetry" x script st r
                  Hx) as Hp.
    unfold connect, bind, ret, result in *.
    destruct (publish_data self (JDict []) "telemetry" (x :: script) st)
      as [[[v | e | ] script'] st']; simpl in *.
    + split; [intros _ | reflexivity].
      destruct (raise_for_status r) eqn:Hr; [discriminate Hp|].
      split; [apply raise_for_status_none, Hr|].
      destruct (nonempty (content r)) eqn:Hn.
      * right. destruct (json_loads (content r)) as [w|];
          [exists w; reflexivity | discriminate Hp].
      * left. apply nonempty_false, Hn.
    + split; [intros H; discriminate H|].
      intros [Hne Hbody]. apply raise_for_status_none in Hne.
      rewrite Hne in Hp. destruct Hbody as [Hc | [w Hw]].
      * rewrite Hc in Hp. discriminate Hp.
      * rewrite Hw in Hp. destruct (nonempty (content r)); discriminate Hp.
    + exfalso. destruct (raise_for_status r); [discriminate Hp|].
      destruct (nonempty (content r)); [|discriminate Hp].
      destruct (json_loads (content r)); discriminate Hp.
  - unfold connect. rewrite then_ret_final. apply publish_data_final.
Qed.

(** ** Further properties of provisioning *)

(** [provision] once the request has returned with response [r]. *)
Lemma provision_run (host device_name device_key device_secret : string)
    (x : exchange) (script : list exchange) (st : state) (r : Response) :
  outcome x = Answer r ->
  provision host device_name device_key device_secret (x :: script) st
  = (check (raise_for_status r) ;;;
     device <- response_json r ;;
     status <- lift (getitem device "status") ;;
     success <-
       (if eq_str status "SUCCESS" then
          credentials <- lift (getitem device "credentialsType") ;;
          ret (eq_str credentials "ACCESS_TOKEN")
        else ret false) ;;
     if (success : bool) then
       value <- lift (getitem device "credentialsValue") ;;
       init host value (Some device_name)
     else raise (TBProvisionFailure device))
      script
      (calls (during x)
         (emit (Post [Lit host; Lit "/api/v1/provision"]
                  (provision_request device_name device_key device_secret))
            st)).
Proof.
  intros Hx. unfold provision. unfold bind at 1.
  rewrite (request_answer _ _ _ _ _ Hx), arrive_state. reflexivity.
Qed.

(** X4. [provision] returns a client only for an answer outside the error
    statuses whose body is a mapping with status 'SUCCESS',
    credentialsType 'ACCESS_TOKEN' and a credentialsValue; the client
    then has the given host and device name, that value as its token, and
    the base URL built from host and token. *)
Theorem provision_client_only_if :
  forall (host device_name device_key device_secret : string)
         (x : exchange) (script : list exchange) (st : state)
         (c : TBHTTPClient),
    result (provision host device_name device_key device_secret
              (x :: script) st) = Ok c ->
    exists r device value,
      outcome x = Answer r
      /\ ~ error_status r
      /\ json_loads (content r) = Some (JDict device)
      /\ dict_get device "status" = Some (JStr "SUCCESS")
      /\ dict_get device "credentialsType" = Some (JStr "ACCESS_TOKEN")
      /\ dict_get device "credentialsValue" = Some value
      /\ c = {| host := host; token := value; name := Some device_name;
                api_base_url := [Lit host; Lit "/api/v1/"; Fmt value] |}.
Proof.
  intros host0 device_name device_key device_secret x script st c.
  destruct (outcome x) as [r|] eqn:Hx.
  - rewrite (provision_run _ _ _ _ _ _ _ _ Hx).
    unfold bind, check, response_json, lift, result.
    destruct (raise_for_status r) eqn:Hr; simpl; [discriminate|].
    apply raise_for_status_none in Hr.
    destruct (json_loads (content r)) as [device|] eqn:Hj; simpl;
      [|discriminate].
    destruct device as [ | | | | | | d]; simpl; try discriminate.
    destruct (dict_get d "status") as [status|] eqn:Hs; simpl;
      [|discriminate].
    destruct (eq_str status "SUCCESS") eqn:Hes; simpl; [|discriminate].
    apply eq_str_true in Hes. subst status.
    destruct (dict_get d "credentialsType") as [credentials|] eqn:Hc; simpl;
      [|discriminate].
    destruct (eq_str credentials "ACCESS_TOKEN") eqn:Hec; simpl;
      [|discriminate].
    apply eq_str_true in Hec. subst credentials.
    destruct (dict_get d "credentialsValue") as [value|] eqn:Hv; simpl;
      [|discriminate].
    intros H. injection H as <-.
    exists r, d, value. repeat split; assumption.
  - unfold provision, bind, request, arrive, result. rewrite Hx.
    simpl. discriminate.
Qed.

(** X5. On an answer outside the error statuses whose body is not what
    the protocol promises, [provision] raises the interpreter's or the
    decoder's exception, not [TBProvisionFailure]: a decode error for a
    body that is not JSON, [TypeError] for a JSON value that is not a
    mapping, and [KeyError] for a mapping without 'status', for a
    'SUCCESS' without 'credentialsType', and for a matching pair without
    'credentialsValue'. *)
Theorem provision_malformed_body :
  forall (host device_name device_key device_secret : string)
         (x : exchange) (script : list exchange) (st : state) (r : Response),
    outcome x = Answer r ->
    ~ error_status r ->
    (json_loads (content r) = None ->
     result (provision host device_name device_key device_secret
               (x :: script) st) = Exc JSONDecodeError)
    /\ (forall v,
           json_loads (content r) = Some v ->
           (forall d, v <> JDict d) ->
           result (provision host device_name device_key device_secret
                     (x :: script) st) = Exc TypeError)
    /\ (forall d,
           json_loads (content r) = Some (JDict d) ->
           (dict_get d "status" = None ->
            result (provision host device_name device_key device_secret
                      (x :: script) st) = Exc (KeyError "status"))
           /\ (dict_get d "status" = Some (JStr "SUCCESS") ->
               dict_get d "credentialsType" = None ->
               result (provision host device_name device_key device_secret
                         (x :: script) st)
               = Exc (KeyError "credentialsType"))
           /\ (dict_get d "status" = Some (JStr "SUCCESS") ->
               dict_get d "credentialsType" = Some (JStr "ACCESS_TOKEN") ->
               dict_get d "credentialsValue" = None ->
               result (provision host device_name device_key device_secret
                         (x :: script) st)
               = Exc (KeyError "credentialsValue"))).
Proof.
  intros host0 device_name device_key device_secret x script st r Hx Hne.
  apply raise_for_status_none in Hne.
  rewrite (provision_run _ _ _ _ _ _ _ _ Hx).
  unfold bind, check, response_json, lift, result. rewrite Hne. simpl.
  split; [|split].
  - intros ->. reflexivity.
  - intros v -> Hnd. destruct v; try reflexivity.
    exfalso. apply (Hnd items). reflexivity.
  - intros d ->. simpl. split; [|split].
    + intros ->. reflexivity.
    + intros -> ->. reflexivity.
    + intros -> Hc ->. simpl. rewrite Hc. reflexivity.
Qed.

(** X6. [provision] makes one attempt: it reads exactly one exchange and
    sends exactly one POST, to [{host}/api/v1/provision], with the device
    name, key and secret.  Nothing else is added to the trace unless a
    client is returned; then the constructor's one log record follows,
    and the new client's two stop signals are unset. *)
Theorem provision_footprint :
  forall (host device_name device_key device_secret : string)
         (x : exchange) (script : list exchange) (st : state),
    unread (provision host device_name device_key device_secret
              (x :: script) st) = script
    /\ trace (final (provision host device_name device_key device_secret
                       (x :: script) st))
       = (trace st
            ++ Post [Lit host; Lit "/api/v1/provision"]
                 (provision_request device_name device_key device_secret)
            :: match result (provision host device_name device_key
                               device_secret (x :: script) st) with
               | Ok _ => [Log WARNING "Log level set to INFO"]
               | _ => []
               end)%list
    /\ (forall c,
           result (provision host device_name device_key device_secret
                     (x :: script) st) = Ok c ->
           forall k,
             is_set k (final (provision host device_name device_key
                                device_secret (x :: script) st)) = false).
Proof.
  intros host0 device_name device_key device_secret x script st.
  destruct (outcome x) as [r|] eqn:Hx.
  - rewrite (provision_run _ _ _ _ _ _ _ _ Hx).
    pose proof (trace_calls (during x)
                  (emit (Post [Lit host0; Lit "/api/v1/provision"]
                           (provision_request device_name device_key
                              device_secret)) st)) as Ht.
    simpl in Ht.
    set (st1 := calls (during x) _) in *. clearbody st1.
    unfold bind, check, response_json, lift, result, unread, final.
    destruct (raise_for_status r); simpl;
      [repeat split; [exact Ht | discriminate]|].
    destruct (json_loads (content r)) as [device|]; simpl;
      [|repeat split; [exact Ht | discriminate]].
    destruct device as [ | | | | | | d]; simpl;
      try (repeat split; [exact Ht | discriminate]).
    destruct (dict_get d "status") as [status|]; simpl;
      [|repeat split; [exact Ht | discriminate]].
    destruct (eq_str status "SUCCESS"); simpl;
      [|repeat split; [exact Ht | discriminate]].
    destruct (dict_get d "credentialsType") as [credentials|]; simpl;
      [|repeat split; [exact Ht | discriminate]].
    destruct (eq_str credentials "ACCESS_TOKEN"); simpl;
      [|repeat split; [exact Ht | discriminate]].
    destruct (dict_get d "credentialsValue") as [value|]; simpl;
      [|repeat split; [exact Ht | discriminate]].
    repeat split. rewrite Ht, <- app_assoc. reflexivity.
  - unfold provision, bind, request, arrive, result, unread, final.
    rewrite Hx. simpl. repeat split; [|discriminate].
    apply (trace_calls (during x)
             (emit (Post [Lit host0; Lit "/api/v1/provision"]
                      (provision_request device_name device_key
                         device_secret)) st)).
Qed.

(** ** Further properties of the stop signal and of the loops *)

Lemma kind_eqb_eq (a b : kind) : kind_eqb a b = true <-> a = b.
Proof. destruct a, b; simpl; split; congruence. Qed.

Lemma existsb_kind_in (k : kind) (ks : list kind) :
  existsb (kind_eqb k) ks = true <-> In k ks.
Proof.
  rewrite existsb_exists. split.
  - intros [j [Hin Heq]]. apply kind_eqb_eq in Heq. subst j. exact Hin.
  - intros Hin. exists k. split; [exact Hin | apply kind_eqb_eq; reflexivity].
Qed.

Lemma existsb_kind_not_in (k : kind) (ks : list kind) :
  ~ In k ks -> existsb (kind_eqb k) ks = false.
Proof.
  intros Hn. destruct (existsb (kind_eqb k) ks) eqn:He; [|reflexivity].
  apply existsb_kind_in in He. contradiction.
Qed.

Lemma is_set_calls (k : kind) (ks : list kind) (st : state) :
  is_set k (calls ks st) = is_set k st || existsb (kind_eqb k) ks.
Proof.
  revert st. induction ks as [|j ks IH]; intros st; simpl.
  - rewrite orb_false_r. reflexivity.
  - change (fold_left (fun s i => unsubscribe_from i s) ks
              (unsubscribe_from j st))
      with (calls ks (unsubscribe_from j st)).
    rewrite IH. unfold is_set, unsubscribe_from, event_set, update, logger.
    simpl. destruct k, j; simpl;
      destruct (event (subscriptions st _)); reflexivity.
Qed.

Lemma thread_calls (k : kind) (ks : list kind) (st : state) :
  thread (subscriptions (calls ks st) k) = thread (subscriptions st k).
Proof.
  revert st. induction ks as [|j ks IH]; intros st; simpl; [reflexivity|].
  change (fold_left (fun s i => unsubscribe_from i s) ks
            (unsubscribe_from j st))
    with (calls ks (unsubscribe_from j st)).
  rewrite IH. destruct k, j; reflexivity.
Qed.

(** X7. Any sequence of calls to [unsubscribe_from_attributes] and
    [unsubscribe_from_rpc] sets the stop signal of exactly the kinds that
    occur in it, whatever their order and number; a signal already set
    stays set; the stored thread references and the trace are left as
    they were (the call's log record is below the logger's level). *)
Theorem unsubscribe_sets_only_its_signal :
  forall (ks : list kind) (k : kind) (st : state),
    is_set k (calls ks st) = is_set k st || existsb (kind_eqb k) ks
    /\ thread (subscriptions (calls ks st) k) = thread (subscriptions st k)
    /\ trace (calls ks st) = trace st
    /\ calls [attributes] st = unsubscribe_from_attributes st
    /\ calls [rpc] st = unsubscribe_from_rpc st.
Proof.
  intros ks k st.
  split; [apply is_set_calls|].
  split; [apply thread_calls|].
  split; [apply trace_calls|].
  split; reflexivity.
Qed.

Section Runs.

Variable self : TBHTTPClient.
Variable k : kind.
Variable callback : json -> option exn.
Variable params : list (string * json).
Variable timeout : option Z.

Lemma iteration_alike (r : Response) (a b : state) :
  is_set k a = is_set k b ->
  exists more,
    fst (iteration k callback timeout r a)
    = fst (iteration k callback timeout r b)
    /\ trace (snd (iteration k callback timeout r a)) = (trace a ++ more)%list
    /\ trace (snd (iteration k callback timeout r b)) = (trace b ++ more)%list
    /\ is_set k (snd (iteration k callback timeout r a)) = is_set k a
    /\ is_set k (snd (iteration k callback timeout r b)) = is_set k b.
Proof.
  intros Hab. unfold iteration. rewrite <- Hab.
  destruct (is_set k a) eqn:Ha;
    [exists (@nil effect); rewrite !app_nil_r; simpl; repeat split;
     congruence|].
  destruct ((status_code r =? 408) && truthy_timeout timeout);
    [exists (@nil effect); rewrite !app_nil_r; simpl; repeat split;
     congruence|].
  destruct (status_code r =? 504);
    [exists (@nil effect); rewrite !app_nil_r; simpl; repeat split;
     congruence|].
  destruct (raise_for_status r);
    [exists (@nil effect); rewrite !app_nil_r; simpl; repeat split;
     congruence|].
  destruct (json_loads (content r)) as [v|];
    [|exists (@nil effect); rewrite !app_nil_r; simpl; repeat split;
      congruence].
  exists [Callback v].
  destruct (callback v); simpl; repeat split; unfold is_set in *; simpl;
    congruence.
Qed.

Lemma arrive_answered (x : exchange) (r : Response) (st : state) :
  outcome x = Answer r -> arrive x st = (Ok r, calls (during x) st).
Proof. intros Hx. rewrite (arrive_eq _ _ _ Hx), arrive_state. reflexivity. Qed.

Lemma arrive_failed (x : exchange) (st : state) :
  outcome x = Failure ->
  arrive x st = (Exc ConnectionError, calls (during x) st).
Proof. unfold arrive, calls. intros ->. reflexivity. Qed.

(** Two schedules that the loop cannot tell apart, run from two states in
    which its stop signal reads the same, give the same result and add
    the same effects. *)
Lemma loop_alike (s1 s2 : list exchange) :
  Forall2 (alike k) s1 s2 ->
  forall a b,
    is_set k a = is_set k b ->
    exists more,
      result (loop self k callback params timeout s1 a)
      = result (loop self k callback params timeout s2 b)
      /\ trace (final (loop self k callback params timeout s1 a))
         = (trace a ++ more)%list
      /\ trace (final (loop self k callback params timeout s2 b))
         = (trace b ++ more)%list
      /\ is_set k (final (loop self k callback params timeout s1 a))
         = is_set k (final (loop self k callback params timeout s2 b)).
Proof.
  induction 1 as [|x y s1 s2 [Hout Hcalls] _ IH]; intros a b Hab.
  - exists [Get (poll_url self k) params]. repeat split. exact Hab.
  - cbn [loop].
    set (a0 := emit (Get (poll_url self k) params) a).
    set (b0 := emit (Get (poll_url self k) params) b).
    assert (Hab1 : is_set k (calls (during x) a0)
                   = is_set k (calls (during y) b0)).
    { rewrite !is_set_calls, Hcalls. unfold a0, b0, is_set. simpl.
      unfold is_set in Hab. rewrite Hab. reflexivity. }
    assert (Hta : trace (calls (during x) a0)
                  = (trace a ++ [Get (poll_url self k) params])%list)
      by (rewrite trace_calls; reflexivity).
    assert (Htb : trace (calls (during y) b0)
                  = (trace b ++ [Get (poll_url self k) params])%list)
      by (rewrite trace_calls; reflexivity).
    destruct (outcome x) as [r|] eqn:Hx.
    + symmetry in Hout.
      rewrite (arrive_answered x r a0 Hx), (arrive_answered y r b0 Hout).
      destruct (iteration_alike r _ _ Hab1)
        as [m1 [Hc [Hma [Hmb [Hsa Hsb]]]]].
      destruct (iteration k callback timeout r (calls (during x) a0))
        as [ca a2].
      destruct (iteration k callback timeout r (calls (during y) b0))
        as [cb b2].
      simpl in Hc, Hma, Hmb, Hsa, Hsb. subst cb.
      destruct ca as [| |e].
      * exists (Get (poll_url self k) params :: m1).
        unfold result, final; simpl.
        rewrite Hma, Hmb, Hta, Htb, <- !app_assoc, Hsa, Hsb.
        repeat split. exact Hab1.
      * destruct (IH a2 b2 ltac:(congruence)) as [m2 [Hr [Ha2 [Hb2 Hs2]]]].
        exists (Get (poll_url self k) params :: m1 ++ m2)%list.
        rewrite Ha2, Hb2, Hma, Hmb, Hta, Htb, <- !app_assoc.
        repeat split; assumption.
      * exists (Get (poll_url self k) params :: m1).
        unfold result, final; simpl.
        rewrite Hma, Hmb, Hta, Htb, <- !app_assoc, Hsa, Hsb.
        repeat split. exact Hab1.
    + symmetry in Hout.
      rewrite (arrive_failed x a0 Hx), (arrive_failed y b0 Hout).
      exists [Get (poll_url self k) params].
      unfold result, final; simpl. rewrite Hta, Htb.
      repeat split. exact Hab1.
Qed.

Lemma alike_refl (s : list exchange) : Forall2 (alike k) s s.
Proof. induction s; constructor; [split; reflexivity | assumption]. Qed.

Lemma iteration_delivers (x : exchange) (v : json) (st : state) :
  delivers k callback x v ->
  is_set k st = false ->
  exists r,
    outcome x = Answer r
    /\ is_set k (calls (during x) st) = false
    /\ iteration k callback timeout r (calls (during x) st)
       = (Continue, emit (Callback v) (calls (during x) st)).
Proof.
  intros [Hnot [r [Hx [Hne [Hv Hcb]]]]] Hst. exists r.
  assert (Hs : is_set k (calls (during x) st) = false)
    by (rewrite is_set_calls, Hst, (existsb_kind_not_in _ _ Hnot);
        reflexivity).
  split; [exact Hx|]. split; [exact Hs|].
  unfold iteration. rewrite Hs.
  assert (H408 : (status_code r =? 408) = false)
    by (apply Z.eqb_neq; unfold error_status in Hne; lia).
  assert (H504 : (status_code r =? 504) = false)
    by (apply Z.eqb_neq; unfold error_status in Hne; lia).
  rewrite H408, H504. simpl.
  apply raise_for_status_none in Hne. rewrite Hne, Hv, Hcb. reflexivity.
Qed.

(** X8. While nothing asks it to stop, a loop hands every answer's value
    to the callback, each once, in the order of the answers, with one GET
    before each and a last GET left in flight. *)
Theorem callbacks_in_arrival_order :
  forall (script : list exchange) (vs : list json) (st : state),
    is_set k st = false ->
    Forall2 (delivers k callback) script vs ->
    result (loop self k callback params timeout script st) = Blocked
    /\ trace (final (loop self k callback params timeout script st))
       = (trace st ++ deliveries (poll_url self k) params vs
            ++ [Get (poll_url self k) params])%list
    /\ is_set k (final (loop self k callback params timeout script st))
       = false.
Proof.
  intros script vs st Hst Hall. revert st Hst.
  induction Hall as [|x v script vs Hx _ IH]; intros st Hst.
  - repeat split. exact Hst.
  - cbn [loop deliveries].
    destruct (iteration_delivers x v
                (emit (Get (poll_url self k) params) st) Hx Hst)
      as [r [Hout [Hs Hit]]].
    rewrite (arrive_answered x r _ Hout), Hit.
    destruct (IH (emit (Callback v)
                    (calls (during x)
                       (emit (Get (poll_url self k) params) st))) Hs)
      as [Hr [Ht Hf]].
    split; [exact Hr|]. split; [|exact Hf].
    rewrite Ht. simpl. rewrite trace_calls. simpl.
    rewrite <- !app_assoc. reflexivity.
Qed.

(** X9. A 504 answer met with the stop signal unset is invisible apart
    from its GET: the loop gives the same result, and adds the same
    effects after that GET, as it would without the exchange. *)
Theorem gateway_timeouts_are_transparent :
  forall (x : exchange) (script : list exchange) (st : state) (r : Response),
    outcome x = Answer r ->
    status_code r = 504 ->
    is_set k (polled self k params x st) = false ->
    exists more,
      result (loop self k callback params timeout (x :: script) st)
      = result (loop self k callback params timeout script st)
      /\ trace (final (loop self k callback params timeout (x :: script) st))
         = (trace st ++ Get (poll_url self k) params :: more)%list
      /\ trace (final (loop self k callback params timeout script st))
         = (trace st ++ more)%list.
Proof.
  intros x script st r Hx H504 Hunset.
  assert (Hl : loop self k callback params timeout (x :: script) st
               = loop self k callback params timeout script
                   (polled self k params x st)).
  { rewrite (loop_cons _ _ _ _ _ x script st r Hx).
    unfold iteration. rewrite Hunset, H504. reflexivity. }
  assert (Hst : is_set k (polled self k params x st) = is_set k st).
  { rewrite Hunset. unfold polled in Hunset.
    rewrite arrive_state, is_set_calls in Hunset.
    apply orb_false_elim in Hunset. symmetry. exact (proj1 Hunset). }
  destruct (loop_alike script script (alike_refl script) _ _ Hst)
    as [more [Hr [Ha [Hb _]]]].
  exists more. rewrite Hl. split; [exact Hr|]. split; [|exact Hb].
  rewrite Ha, trace_polled, <- app_assoc. reflexivity.
Qed.

Lemma alike_without_calls (j : kind) (script : list exchange) :
  j <> k -> Forall2 (alike k) (map (without_calls j) script) script.
Proof.
  intros Hne. induction script as [|x script IH]; constructor;
    [|exact IH].
  split; [reflexivity|]. simpl.
  induction (during x) as [|i ks IHk]; [reflexivity|]. simpl.
  destruct (kind_eqb j i) eqn:Hji; simpl.
  - apply kind_eqb_eq in Hji. subst i.
    assert (Hk : kind_eqb k j = false).
    { destruct (kind_eqb k j) eqn:Hkj; [|reflexivity].
      apply kind_eqb_eq in Hkj. congruence. }
    rewrite Hk. exact IHk.
  - rewrite IHk. reflexivity.
Qed.

(** X10. The two kinds do not interfere: calls to the unsubscribe
    operation of the other kind never change what a loop does.  With
    those calls removed from the schedule the loop gives the same result,
    adds the same effects and leaves its own signal the same. *)
Theorem other_kind_unsubscribe_is_ignored :
  forall (j : kind) (script : list exchange) (st : state),
    j <> k ->
    result (loop self k callback params timeout
              (map (without_calls j) script) st)
    = result (loop self k callback params timeout script st)
    /\ trace (final (loop self k callback params timeout
                       (map (without_calls j) script) st))
       = trace (final (loop self k callback params timeout script st))
    /\ is_set k (final (loop self k callback params timeout
                          (map (without_calls j) script) st))
       = is_set k (final (loop self k callback params timeout script st)).
Proof.
  intros j script st Hne.
  destruct (loop_alike _ _ (alike_without_calls j script Hne) st st
              eq_refl) as [more [Hr [Ha [Hb Hs]]]].
  split; [exact Hr|]. split; [|exact Hs]. rewrite Ha, Hb. reflexivity.
Qed.

(** X11. A stop request made before the thread body starts is lost: the
    body clears the signal first, so it runs exactly as if
    [unsubscribe_from_*] had not been called. *)
Theorem unsubscribe_before_start_is_lost :
  forall (ks : list kind) (script : list exchange) (st : state),
    result (subscription self k callback params timeout script (calls ks st))
    = result (subscription self k callback params timeout script st)
    /\ trace (final (subscription self k callback params timeout script
                       (calls ks st)))
       = trace (final (subscription self k callback params timeout script
                         st)).
Proof.
  intros ks script st. rewrite !subscription_unfold.
  set (a := logger INFO (start_message k) (event_clear k (calls ks st))).
  set (b := logger INFO (start_message k) (event_clear k st)).
  assert (Hab : is_set k a = is_set k b).
  { unfold a, b. rewrite !is_set_logger, !is_set_event_clear. reflexivity. }
  assert (Ht : trace a = trace b).
  { unfold a, b, logger. simpl. unfold event_clear, update. simpl.
    rewrite trace_calls. reflexivity. }
  destruct (loop_alike script script (alike_refl script) a b Hab)
    as [more [Hr [Ha [Hb _]]]].
  unfold result, final in *.
  destruct (loop self k callback params timeout script a)
    as [[[u | e | ] sa] fa];
    destruct (loop self k callback params timeout script b)
      as [[[u' | e' | ] sb] fb]; simpl in *; try discriminate Hr.
  - split; [reflexivity|].
    unfold logger, event_clear, update. simpl. congruence.
  - split; congruence.
  - split; congruence.
Qed.

End Runs.

(** ** How a thread body ends *)

Section Endings.

Variable self : TBHTTPClient.
Variable k : kind.
Variable callback : json -> option exn.
Variable params : list (string * json).
Variable timeout : option Z.

(** A loop that is still waiting has not seen its stop signal set. *)
Lemma loop_blocked_unset (pre : list exchange) (st : state) :
  is_set k st = false ->
  result (loop self k callback params timeout pre st) = Blocked ->
  is_set k (final (loop self k callback params timeout pre st)) = false.
Proof.
  revert st. induction pre as [|x pre IH]; intros st Hst Hb.
  - exact Hst.
  - cbn [loop] in *.
    destruct (outcome x) as [r|] eqn:Hx.
    + rewrite (arrive_answered x r _ Hx) in *.
      destruct (iteration_alike k callback timeout r _ _
                  (eq_refl (is_set k (calls (during x)
                     (emit (Get (poll_url self k) params) st)))))
        as [m [_ [_ [_ [Hs _]]]]].
      assert (Hun : is_set k (calls (during x)
                      (emit (Get (poll_url self k) params) st)) = false).
      { destruct (is_set k (calls (during x)
                    (emit (Get (poll_url self k) params) st))) eqn:E;
          [|reflexivity].
        rewrite (iteration_stop_set k callback timeout r _ E)
          in Hb.
        discriminate Hb. }
      destruct (iteration k callback timeout r
                  (calls (during x)
                     (emit (Get (poll_url self k) params) st)))
        as [[| |e] st2]; try discriminate Hb.
      simpl in Hs. apply IH; [congruence | exact Hb].
    + rewrite (arrive_failed x _ Hx) in Hb. discriminate Hb.
Qed.

(** A pass that raises ends the thread body there: the exception leaves
    the body, the rest of the schedule is not read, and the statements
    after the loop are not run. *)
Lemma subscription_dies (pre : list exchange) (x : exchange)
    (post : list exchange) (st : state) (r : Response) (e : exn)
    (st' : state) :
  result (loop self k callback params timeout pre (started k st)) = Blocked ->
  outcome x = Answer r ->
  iteration k callback timeout r
    (calls (during x)
       (final (loop self k callback params timeout pre (started k st))))
  = (Raise e, st') ->
  subscription self k callback params timeout (pre ++ x :: post)%list st
  = (Exc e, post, st').
Proof.
  intros Hb Hx Hit. rewrite subscription_unfold. fold (started k st).
  rewrite (loop_app_blocked self k callback params timeout pre x post _ Hb).
  rewrite (arrive_answered x r _ Hx), Hit. reflexivity.
Qed.

Lemma waiting_unset (pre : list exchange) (x : exchange) (st : state) :
  result (loop self k callback params timeout pre (started k st)) = Blocked ->
  ~ In k (during x) ->
  is_set k
    (calls (during x)
       (final (loop self k callback params timeout pre (started k st))))
  = false.
Proof.
  intros Hb Hnot. rewrite is_set_calls, (existsb_kind_not_in _ _ Hnot).
  rewrite loop_blocked_unset; [reflexivity | | exact Hb].
  unfold started. rewrite is_set_logger. apply is_set_event_clear.
Qed.

(** X12. An answer with an error status that the loop does not treat
    specially (any status in [400, 600) other than 504 and, when a
    nonzero timeout was given, 408) ends the thread: the body raises
    [HTTPError] for that answer, reads no later exchange, invokes no
    callback for the answer, and does not reach the statements after the
    loop, so no stop record is logged. *)
Theorem error_answer_ends_thread :
  forall (pre : list exchange) (x : exchange) (post : list exchange)
         (st : state) (r : Response),
    result (loop self k callback params timeout pre (started k st))
    = Blocked ->
    outcome x = Answer r ->
    ~ In k (during x) ->
    error_status r ->
    status_code r <> 504 ->
    (status_code r = 408 -> truthy_timeout timeout = false) ->
    subscription self k callback params timeout (pre ++ x :: post)%list st
    = (Exc (HTTPError r), post,
       calls (during x)
         (final (loop self k callback params timeout pre (started k st))))
    /\ trace (final (subscription self k callback params timeout
                       (pre ++ x :: post)%list st))
       = trace (final (loop self k callback params timeout pre
                         (started k st))).
Proof.
  intros pre x post st r Hb Hx Hnot Herr H504 H408.
  assert (Hs : subscription self k callback params timeout
                 (pre ++ x :: post)%list st
               = (Exc (HTTPError r), post,
                  calls (during x)
                    (final (loop self k callback params timeout pre
                              (started k st))))).
  { apply (subscription_dies pre x post st r _ _ Hb Hx).
    unfold iteration. rewrite (waiting_unset pre x st Hb Hnot).
    assert (Hg : (status_code r =? 408) && truthy_timeout timeout = false).
    { destruct (Z.eqb_spec (status_code r) 408) as [E|E];
        [rewrite (H408 E)|]; reflexivity. }
    rewrite Hg. apply Z.eqb_neq in H504. rewrite H504.
    rewrite (raise_for_status_error r Herr). reflexivity. }
  split; [exact Hs|]. rewrite Hs. unfold final; simpl. apply trace_calls.
Qed.

(** X13. An exception raised by the user's callback ends the thread: the
    callback has been invoked with the decoded body, its exception leaves
    the thread body, no later exchange is read and no stop record is
    logged. *)
Theorem callback_exception_ends_thread :
  forall (pre : list exchange) (x : exchange) (post : list exchange)
         (st : state) (r : Response) (v : json) (e : exn),
    result (loop self k callback params timeout pre (started k st))
    = Blocked ->
    outcome x = Answer r ->
    ~ In k (during x) ->
    ~ error_status r ->
    json_loads (content r) = Some v ->
    callback v = Some e ->
    subscription self k callback params timeout (pre ++ x :: post)%list st
    = (Exc e, post,
       emit (Callback v)
         (calls (during x)
            (final (loop self k callback params timeout pre
                      (started k st)))))
    /\ trace (final (subscription self k callback params timeout
                       (pre ++ x :: post)%list st))
       = (trace (final (loop self k callback params timeout pre
                          (started k st)))
            ++ [Callback v])%list.
Proof.
  intros pre x post st r v e Hb Hx Hnot Hne Hv Hcb.
  assert (Hs : subscription self k callback params timeout
                 (pre ++ x :: post)%list st
               = (Exc e, post,
                  emit (Callback v)
                    (calls (during x)
                       (final (loop self k callback params timeout pre
                                 (started k st)))))).
  { apply (subscription_dies pre x post st r _ _ Hb Hx).
    unfold iteration. rewrite (waiting_unset pre x st Hb Hnot).
    assert (H408 : (status_code r =? 408) = false)
      by (apply Z.eqb_neq; unfold error_status in Hne; lia).
    assert (H504 : (status_code r =? 504) = false)
      by (apply Z.eqb_neq; unfold error_status in Hne; lia).
    rewrite H408, H504. simpl.
    apply raise_for_status_none in Hne. rewrite Hne, Hv, Hcb. reflexivity. }
  split; [exact Hs|]. rewrite Hs. unfold final; simpl.
  rewrite trace_calls. reflexivity.
Qed.

(** X14. An answer outside the error statuses whose body is not JSON
    ends the thread with the decode error: unlike [publish_data], the
    loop has no guard for an empty body.  The callback is not invoked, no
    later exchange is read and no stop record is logged. *)
Theorem undecodable_answer_ends_thread :
  forall (pre : list exchange) (x : exchange) (post : list exchange)
         (st : state) (r : Response),
    result (loop self k callback params timeout pre (started k st))
    = Blocked ->
    outcome x = Answer r ->
    ~ In k (during x) ->
    ~ error_status r ->
    json_loads (content r) = None ->
    subscription self k callback params timeout (pre ++ x :: post)%list st
    = (Exc JSONDecodeError, post,
       calls (during x)
         (final (loop self k callback params timeout pre (started k st))))
    /\ trace (final (subscription self k callback params timeout
                       (pre ++ x :: post)%list st))
       = trace (final (loop self k callback params timeout pre
                         (started k st))).
Proof.
  intros pre x post st r Hb Hx Hnot Hne Hv.
  assert (Hs : subscription self k callback params timeout
                 (pre ++ x :: post)%list st
               = (Exc JSONDecodeError, post,
                  calls (during x)
                    (final (loop self k callback params timeout pre
                              (started k st))))).
  { apply (subscription_dies pre x post st r _ _ Hb Hx).
    unfold iteration. rewrite (waiting_unset pre x st Hb Hnot).
    assert (H408 : (status_code r =? 408) = false)
      by (apply Z.eqb_neq; unfold error_status in Hne; lia).
    assert (H504 : (status_code r =? 504) = false)
      by (apply Z.eqb_neq; unfold error_status in Hne; lia).
    rewrite H408, H504. simpl.
    apply raise_for_status_none in Hne. rewrite Hne, Hv. reflexivity. }
  split; [exact Hs|]. rewrite Hs. unfold final; simpl. apply trace_calls.
Qed.

Lemma iteration_footprint (r : Response) (st : state) :
  exists more,
    trace (snd (iteration k callback timeout r st)) = (trace st ++ more)%list
    /\ filter is_get more = []
    /\ Forall (thread_effect self k params) more.
Proof.
  unfold iteration.
  destruct (is_set k st);
    [exists (@nil effect); rewrite app_nil_r; repeat split; constructor|].
  destruct ((status_code r =? 408) && truthy_timeout timeout);
    [exists (@nil effect); rewrite app_nil_r; repeat split; constructor|].
  destruct (status_code r =? 504);
    [exists (@nil effect); rewrite app_nil_r; repeat split; constructor|].
  destruct (raise_for_status r);
    [exists (@nil effect); rewrite app_nil_r; repeat split; constructor|].
  destruct (json_loads (content r)) as [v|];
    [|exists (@nil effect); rewrite app_nil_r; repeat split; constructor].
  exists [Callback v].
  split; [destruct (callback v); reflexivity|]. split; [reflexivity|].
  constructor; [right; right; right; exists v; reflexivity | constructor].
Qed.

(** One GET per exchange read, plus the one in flight when the loop is
    left waiting; nothing else but callbacks. *)
Lemma loop_footprint (script : list exchange) (st : state) :
  exists more,
    trace (final (loop self k callback params timeout script st))
    = (trace st ++ more)%list
    /\ Forall (thread_effect self k params) more
    /\ (List.length (filter is_get more)
        + List.length (unread (loop self k callback params timeout script st))
        = List.length script
          + match result (loop self k callback params timeout script st) with
            | Blocked => 1
            | _ => 0
            end)%nat.
Proof.
  revert st. induction script as [|x script IH]; intros st.
  - exists [Get (poll_url self k) params]. repeat split.
    constructor; [right; right; left; reflexivity | constructor].
  - cbn [loop].
    set (st0 := emit (Get (poll_url self k) params) st).
    assert (Ht : trace (calls (during x) st0)
                 = (trace st ++ [Get (poll_url self k) params])%list)
      by (rewrite trace_calls; reflexivity).
    assert (Hg : thread_effect self k params (Get (poll_url self k) params))
      by (right; right; left; reflexivity).
    destruct (outcome x) as [r|] eqn:Hx.
    + rewrite (arrive_answered x r st0 Hx).
      destruct (iteration_footprint r (calls (during x) st0))
        as [m1 [Hm1 [Hc1 Hfe1]]].
      destruct (iteration k callback timeout r (calls (during x) st0))
        as [[| |e] st2]; simpl in Hm1.
      * exists (Get (poll_url self k) params :: m1).
        unfold result, final, unread; simpl.
        rewrite Hm1, Ht, <- app_assoc, Hc1. simpl.
        repeat split; [constructor; assumption | lia].
      * destruct (IH st2) as [m2 [Hm2 [Hf2 Hn2]]].
        exists (Get (poll_url self k) params :: m1 ++ m2)%list.
        rewrite Hm2, Hm1, Ht, <- !app_assoc.
        split; [reflexivity|]. split.
        -- constructor; [exact Hg|]. apply Forall_app. split; assumption.
        -- simpl. rewrite filter_app, Hc1. simpl. lia.
      * exists (Get (poll_url self k) params :: m1).
        unfold result, final, unread; simpl.
        rewrite Hm1, Ht, <- app_assoc, Hc1. simpl.
        repeat split; [constructor; assumption | lia].
    + rewrite (arrive_failed x st0 Hx).
      exists [Get (poll_url self k) params].
      unfold result, final, unread; simpl. rewrite Ht.
      repeat split; [constructor; [exact Hg | constructor] | lia].
Qed.

End Endings.

(** X15. A subscription thread is a plain polling loop.  Everything it
    adds to the trace is its start record, GETs to its own endpoint with
    the query parameters fixed when subscribing ([timeout] when that was
    nonzero, nothing otherwise), callbacks, and its stop record; it sends
    exactly one GET per exchange it reads, plus the one left in flight
    when it is still waiting, with no retry and no second request. *)
Theorem thread_sends_only_its_polls :
  forall (self : TBHTTPClient) (k : kind) (thread_name : string)
         (callback : json -> option exn) (timeout : option Z) (st : state)
         (script : list exchange) (st' : state),
    exists more,
      trace (final (target (fst (subscribe self k thread_name callback
                                   timeout st)) script st'))
      = (trace st' ++ more)%list
      /\ Forall (thread_effect self k (poll_params timeout)) more
      /\ (List.length (filter is_get more)
          + List.length (unread (target (fst (subscribe self k thread_name
                                           callback timeout st)) script st'))
          = List.length script
            + match result (target (fst (subscribe self k thread_name
                                           callback timeout st)) script st')
              with
              | Blocked => 1
              | _ => 0
              end)%nat.
Proof.
  intros self k thread_name callback timeout st script st'.
  change (target (fst (subscribe self k thread_name callback timeout st)))
    with (subscription self k callback (poll_params timeout) timeout).
  rewrite subscription_unfold.
  destruct (loop_footprint self k callback (poll_params timeout) timeout
              script (logger INFO (start_message k) (event_clear k st')))
    as [more [Hm [Hf Hn]]].
  unfold result, final, unread in *.
  destruct (loop self k callback (poll_params timeout) timeout script
              (logger INFO (start_message k) (event_clear k st')))
    as [[[u | e | ] rest] fin]; simpl in *.
  - exists (Log INFO (start_message k) :: more
              ++ [Log INFO (stop_message k)])%list.
    rewrite Hm, <- !app_assoc. split; [reflexivity|]. split.
    + constructor; [left; reflexivity|]. apply Forall_app.
      split; [exact Hf|].
      constructor; [right; left; reflexivity | constructor].
    + cbn [filter is_get]. rewrite filter_app. simpl.
      rewrite app_nil_r. exact Hn.
  - exists (Log INFO (start_message k) :: more).
    rewrite Hm, <- !app_assoc. split; [reflexivity|]. split.
    + constructor; [left; reflexivity | exact Hf].
    + exact Hn.
  - exists (Log INFO (start_message k) :: more).
    rewrite Hm, <- !app_assoc. split; [reflexivity|]. split.
    + constructor; [left; reflexivity | exact Hf].
    + exact Hn.
Qed.

(** ** The stop signal over whole runs, and [timeout=0] *)




(** The first things a thread body does: its start record, then its GET. *)
Lemma thread_first_effects (self : TBHTTPClient) (k : kind)
    (callback : json -> option exn) (params : list (string * json))
    (timeout : option Z) (script : list exchange) (st : state) :
  exists more,
    trace (final (subscription self k callback params timeout script st))
    = (trace st
         ++ Log INFO (start_message k) :: Get (poll_url self k) params
         :: more)%list.
Proof.
  rewrite subscription_unfold.
  destruct (loop_trace self k callback params timeout script
              (logger INFO (start_message k) (event_clear k st)))
    as [more [Hm _]].
  unfold final in *.
  destruct (loop self k callback params timeout script
              (logger INFO (start_message k) (event_clear k st)))
    as [[[u | e | ] rest] fin]; simpl in *.
  - exists (more ++ [Log INFO (stop_message k)])%list.
    rewrite Hm, <- !app_assoc. reflexivity.
  - exists more. rewrite Hm, <- !app_assoc. reflexivity.
  - exists more. rewrite Hm, <- !app_assoc. reflexivity.
Qed.


(** C10. Subscribing with [timeout=0] is the same as subscribing with no
    timeout, for attributes and for RPC: the started threads cannot be
    told apart; the thread polls, and none of its requests, from the
    first GET on, carries a query parameter; and a 408 answer met with
    the stop signal unset does not end the loop with [break]: the pass
    raises the [HTTPError] of [raise_for_status], which ends the thread
    with later exchanges unread. *)
Theorem zero_timeout_is_no_timeout :
  forall (self : TBHTTPClient) (callback : json -> option exn) (st : state),
    same_thread (subscribe_to_attributes self callback (Some 0) st)
                (subscribe_to_attributes self callback None st)
    /\ same_thread (subscribe_to_rpc self callback (Some 0) st)
                   (subscribe_to_rpc self callback None st)
    /\ (forall script st',
          exists more,
            trace (final (target
                            (fst (subscribe_to_attributes self callback
                                    (Some 0) st)) script st'))
            = (trace st' ++ more)%list
            /\ Forall without_params more)
    /\ (forall script st',
          exists more,
            trace (final (target
                            (fst (subscribe_to_rpc self callback
                                    (Some 0) st)) script st'))
            = (trace st' ++ more)%list
            /\ Forall without_params more)
    /\ (forall k r st',
          status_code r = 408 ->
          is_set k st' = false ->
          iteration k callback (Some 0) r st' = (Raise (HTTPError r), st'))
    /\ (forall k script st',
          exists more,
            trace (final (target (fst (subscribe_to k self callback (Some 0)
                                         st)) script st'))
            = (trace st'
                 ++ Log INFO (start_message k) :: Get (poll_url self k) []
                 :: more)%list)
    /\ (forall k pre x post st' r,
          result (loop self k callback [] (Some 0) pre (started k st'))
          = Blocked ->
          outcome x = Answer r ->
          status_code r = 408 ->
          ~ In k (during x) ->
          target (fst (subscribe_to k self callback (Some 0) st))
            (pre ++ x :: post)%list st'
          = (Exc (HTTPError r), post,
             calls (during x)
               (final (loop self k callback [] (Some 0) pre
                         (started k st'))))).
Proof.
  intros self callback st.
  split; [|split; [|split; [|split; [|split; [|split]]]]].
  - apply (subscribe_zero_timeout self attributes).
  - apply (subscribe_zero_timeout self rpc).
  - intros script st'. apply subscription_without_params.
  - intros script st'. apply subscription_without_params.
  - intros k r st' H408 Hunset. unfold iteration.
    rewrite Hunset, H408. simpl.
    rewrite raise_for_status_error; [reflexivity | lia].
  - intros k script st'.
    assert (Ht : target (fst (subscribe_to k self callback (Some 0) st))
                 = subscription self k callback [] (Some 0))
      by (destruct k; reflexivity).
    rewrite Ht. apply thread_first_effects.
  - intros k pre x post st' r Hb Hx H408 Hnot.
    assert (Ht : target (fst (subscribe_to k self callback (Some 0) st))
                 = subscription self k callback [] (Some 0))
      by (destruct k; reflexivity).
    rewrite Ht.
    apply (subscription_dies self k callback [] (Some 0) pre x post st' r
             _ _ Hb Hx).
    unfold iteration.
    rewrite (waiting_unset self k callback [] (Some 0) pre x st' Hb Hnot).
    rewrite H408. simpl.
    rewrite raise_for_status_error; [reflexivity | lia].
Qed.

(** ** Telemetry timestamps: time zones and whole seconds *)

(** X16. [send_telemetry] does not convert an aware timestamp to UTC: it
    replaces the zone.  Two datetimes with the same calendar fields send
    the same payload whatever their zones, and for an aware datetime the
    instant that is sent is the true one shifted by the zone's offset. *)
Theorem timestamp_zone_is_replaced :
  forall (self : TBHTTPClient) (telemetry : json) (t : Datetime.datetime)
         (tz : option Z) (script : list exchange) (st : state),
    utc_milliseconds (Datetime.replace_tzinfo t tz) = utc_milliseconds t
    /\ send_telemetry self telemetry (Some (Datetime.replace_tzinfo t tz))
         script st
       = send_telemetry self telemetry (Some t) script st
    /\ epoch_microseconds t
       = Datetime.sub t Datetime.EPOCH + Datetime.utcoffset t.
Proof.
  intros self telemetry t tz script st.
  split; [reflexivity|]. split; [reflexivity|].
  unfold epoch_microseconds, Datetime.sub, Datetime.wall_microseconds,
    Datetime.utcoffset. simpl. unfold Datetime.utc. lia.
Qed.

Lemma digits2_shift (p : positive) (j : Z) :
  0 <= j -> Zdigits2 (Zpos p * 2 ^ j) = Zdigits2 (Zpos p) + j.
Proof.
  intros Hj. pattern j. apply natlike_ind; [| |exact Hj].
  - rewrite Z.mul_1_r. lia.
  - intros i Hi IH. rewrite Z.pow_succ_r by exact Hi.
    assert (Hpos : 0 < Zpos p * 2 ^ i)
      by (apply Z.mul_pos_pos; [lia | apply Z.pow_pos_nonneg; lia]).
    destruct (Zpos p * 2 ^ i) as [|q|q] eqn:Hq; try lia.
    replace (Zpos p * (2 * 2 ^ i)) with (2 * (Zpos p * 2 ^ i)) by lia.
    rewrite Hq. change (2 * Zpos q) with (Zpos q~0).
    cbn [Zdigits2 digits2_pos] in *. rewrite Pos2Z.inj_succ. lia.
Qed.

Lemma shr_1_double (m : Z) :
  0 <= m ->
  shr_1 {| shr_m := 2 * m; shr_r := false; shr_s := false |}
  = {| shr_m := m; shr_r := false; shr_s := false |}.
Proof. intros Hm. destruct m as [|p|p]; try lia; reflexivity. Qed.

Lemma iter_shr_exact (n : positive) :
  forall m, 0 <= m ->
    iter_pos shr_1 n
      {| shr_m := m * 2 ^ Zpos n; shr_r := false; shr_s := false |}
    = {| shr_m := m; shr_r := false; shr_s := false |}.
Proof.
  induction n as [n IH | n IH |]; intros m Hm; cbn [iter_pos].
  - replace (m * 2 ^ Zpos n~1) with (2 * ((m * 2 ^ Zpos n) * 2 ^ Zpos n)).
    + assert (H2 : 0 <= 2 ^ Zpos n) by (apply Z.pow_nonneg; lia).
      rewrite shr_1_double by nia.
      rewrite IH by nia. apply IH, Hm.
    + replace (Zpos n~1) with (Zpos n + Zpos n + 1) by lia.
      rewrite !Z.pow_add_r by lia. rewrite Z.pow_1_r. ring.
  - replace (m * 2 ^ Zpos n~0) with ((m * 2 ^ Zpos n) * 2 ^ Zpos n).
    + assert (H2 : 0 <= 2 ^ Zpos n) by (apply Z.pow_nonneg; lia).
      rewrite IH by nia. apply IH, Hm.
    + replace (Zpos n~0) with (Zpos n + Zpos n) by lia.
      rewrite Z.pow_add_r by lia. ring.
  - rewrite Z.pow_1_r. replace (m * 2) with (2 * m) by lia.
    apply shr_1_double, Hm.
Qed.

Lemma shr_fexp_exact (p : positive) (ex z : Z) :
  ex <= 0 -> 0 < z < 2 ^ 53 -> Zpos p = z * 2 ^ (- ex) ->
  exists m e,
    shr_fexp 53 1024 (Zpos p) ex loc_Exact
    = ({| shr_m := Zpos m; shr_r := false; shr_s := false |}, e)
    /\ e <= 0 /\ Zpos m = z * 2 ^ (- e)
    /\ fexp 53 1024 (Zdigits2 (Zpos m) + e) - e <= 0.
Proof.
  intros Hex Hz Hp.
  destruct z as [|q|q]; try lia.
  pose proof (Zdigits2_bound (Zpos q) 53 ltac:(lia) ltac:(lia)) as Hd.
  assert (Hd1 : 1 <= Zdigits2 (Zpos q)) by (simpl; lia).
  set (D := Zdigits2 (Zpos q)) in *.
  assert (Hf : fexp 53 1024 D = D - 53) by (unfold fexp, emin; lia).
  assert (Hshift : forall c e, e <= 0 -> Zpos c = Zpos q * 2 ^ (- e) ->
                     fexp 53 1024 (Zdigits2 (Zpos c) + e) - e = D - 53 - e).
  { intros c e He Hc. rewrite Hc, digits2_shift by lia. fold D.
    replace (D + - e + e) with D by lia. rewrite Hf. reflexivity. }
  assert (Hsh : shr_fexp 53 1024 (Zpos p) ex loc_Exact
                = shr {| shr_m := Zpos p; shr_r := false; shr_s := false |}
                    ex (D - 53 - ex)).
  { unfold shr_fexp. rewrite (Hshift p ex Hex Hp). reflexivity. }
  rewrite Hsh. unfold shr.
  destruct (D - 53 - ex) as [|n|n] eqn:Hn.
  - exists p, ex. rewrite (Hshift p ex Hex Hp). repeat split; lia.
  - assert (Hsplit : Zpos p = (Zpos q * 2 ^ (- (ex + Zpos n))) * 2 ^ Zpos n).
    { rewrite Hp, <- Z.mul_assoc, <- Z.pow_add_r by lia.
      f_equal. f_equal. lia. }
    assert (Hc : 0 < Zpos q * 2 ^ (- (ex + Zpos n)))
      by (apply Z.mul_pos_pos; [lia | apply Z.pow_pos_nonneg; lia]).
    destruct (Zpos q * 2 ^ (- (ex + Zpos n))) as [|c|c] eqn:Hcq; try lia.
    exists c, (ex + Zpos n).
    rewrite Hsplit, iter_shr_exact by lia.
    rewrite (Hshift c (ex + Zpos n)) by lia.
    repeat split; lia.
  - exists p, ex. rewrite (Hshift p ex Hex Hp). repeat split; lia.
Qed.

Lemma round_exact (s : bool) (p : positive) (ex z : Z) :
  ex <= 0 -> 0 < z < 2 ^ 53 -> Zpos p = z * 2 ^ (- ex) ->
  exists m e,
    binary_round_aux 53 1024 s (Zpos p) ex loc_Exact = S754_finite s m e
    /\ e <= 0 /\ Zpos m = z * 2 ^ (- e).
Proof.
  intros Hex Hz Hp.
  destruct (shr_fexp_exact p ex z Hex Hz Hp) as [m [e [Hs [He [Hm Hn]]]]].
  unfold binary_round_aux. rewrite Hs. simpl.
  assert (Hs2 : shr_fexp 53 1024 (Zpos m) e loc_Exact
                = ({| shr_m := Zpos m; shr_r := false; shr_s := false |}, e)).
  { unfold shr_fexp, shr.
    destruct (fexp 53 1024 (Zdigits2 (Zpos m) + e) - e); try reflexivity.
    lia. }
  rewrite Hs2. simpl.
  replace (e <=? 971) with true by (symmetry; apply Z.leb_le; lia).
  exists m, e. repeat split; assumption.
Qed.

Lemma div_core_exact (z : Z) (m1 : positive) :
  0 < z < 2 ^ 40 -> Zpos m1 = z * 1000000 ->
  exists q e,
    SFdiv_core_binary 53 1024 (Zpos m1) 0 (Zpos 1000000) 0
    = (Zpos q, e, loc_Exact)
    /\ e <= 0 /\ Zpos q = z * 2 ^ (- e).
Proof.
  intros Hz Hm. unfold SFdiv_core_binary.
  assert (Hlt : Zpos m1 < 2 ^ 60).
  { rewrite Hm. change (2 ^ 60) with (2 ^ 40 * 2 ^ 20).
    assert (1000000 < 2 ^ 20) by reflexivity. nia. }
  pose proof (Zdigits2_bound (Zpos m1) 60 ltac:(lia) ltac:(lia)) as Hd.
  assert (Hd1 : 1 <= Zdigits2 (Zpos m1)) by (simpl; lia).
  change (Zdigits2 (Zpos 1000000)) with 20.
  set (d := Zdigits2 (Zpos m1)) in *.
  assert (He : Z.min (fexp 53 1024 (d + 0 - (20 + 0))) (0 - 0) = d - 73)
    by (unfold fexp, emin; lia).
  rewrite He.
  destruct (0 - 0 - (d - 73)) as [|s|s] eqn:Hs; try lia.
  assert (Hsh : Z.shiftl (Zpos m1) (Zpos s) = (z * 2 ^ Zpos s) * 1000000).
  { rewrite Z.shiftl_mul_pow2 by lia. rewrite Hm. ring. }
  rewrite Hsh.
  assert (Hq0 : 0 < z * 2 ^ Zpos s)
    by (apply Z.mul_pos_pos; [lia | apply Z.pow_pos_nonneg; lia]).
  destruct (Z.div_eucl (z * 2 ^ Zpos s * 1000000) 1000000) as [q r] eqn:Hqr.
  assert (Hq : q = z * 2 ^ Zpos s).
  { pose proof (Z.div_mul (z * 2 ^ Zpos s) 1000000 ltac:(lia)) as H.
    unfold Z.div in H. rewrite Hqr in H. exact H. }
  assert (Hr : r = 0).
  { pose proof (Z.mod_mul (z * 2 ^ Zpos s) 1000000 ltac:(lia)) as H.
    unfold Z.modulo in H. rewrite Hqr in H. exact H. }
  subst r. destruct q as [|q|q]; try lia.
  exists q, (d - 73). split; [reflexivity|]. split; [lia|].
  rewrite Hq. f_equal. f_equal. lia.
Qed.

Lemma int_true_divide_exact (s : Z) :
  s <> 0 -> - 2 ^ 40 < s < 2 ^ 40 ->
  exists m e,
    Float64.int_true_divide (s * 1000000) 1000000 = S754_finite (s <? 0) m e
    /\ e <= 0 /\ Zpos m = Z.abs s * 2 ^ (- e).
Proof.
  intros Hnz Hs. unfold Float64.int_true_divide.
  destruct (s * 1000000) as [|m1|m1] eqn:Hm; try lia.
  - assert (Hpos : 0 < s) by lia.
    destruct (div_core_exact s m1 ltac:(lia) ltac:(lia))
      as [q [e [Hc [He Hq]]]].
    unfold SFdiv, Float64.prec, Float64.emax. rewrite Hc. simpl xorb.
    destruct (round_exact false q e s He ltac:(change (2 ^ 53) with 9007199254740992; change (2 ^ 40) with 1099511627776 in Hs; lia) Hq)
      as [m [e2 [Hr [He2 Hm2]]]].
    exists m, e2. rewrite Hr.
    replace (s <? 0) with false by (symmetry; apply Z.ltb_ge; lia).
    repeat split; try assumption. rewrite Z.abs_eq by lia. exact Hm2.
  - assert (Hneg : s < 0) by lia.
    destruct (div_core_exact (- s) m1 ltac:(lia) ltac:(lia))
      as [q [e [Hc [He Hq]]]].
    unfold SFdiv, Float64.prec, Float64.emax. rewrite Hc. simpl xorb.
    destruct (round_exact true q e (- s) He ltac:(change (2 ^ 53) with 9007199254740992; change (2 ^ 40) with 1099511627776 in Hs; lia) Hq)
      as [m [e2 [Hr [He2 Hm2]]]].
    exists m, e2. rewrite Hr.
    replace (s <? 0) with true by (symmetry; apply Z.ltb_lt; lia).
    repeat split; try assumption. rewrite Z.abs_neq by lia. exact Hm2.
Qed.

Lemma mul_1000_exact (s : bool) (m : positive) (e z : Z) :
  e <= 0 -> 0 < z < 2 ^ 40 -> Zpos m = z * 2 ^ (- e) ->
  exists m' e',
    Float64.mul (S754_finite s m e) (Float64.of_int 1000) = S754_finite s m' e'
    /\ e' <= 0 /\ Zpos m' = (z * 1000) * 2 ^ (- e').
Proof.
  intros He Hz Hm.
  change (Float64.of_int 1000) with (S754_finite false 8796093022208000 (-43)).
  unfold Float64.mul, SFmul, Float64.prec, Float64.emax.
  replace (xorb s false) with s by (destruct s; reflexivity).
  apply (round_exact s _ (e + -43) (z * 1000)); try lia.
  rewrite Pos2Z.inj_mul, Hm.
    replace (- (e + -43)) with (- e + 43) by lia.
    rewrite Z.pow_add_r by lia.
    change (Zpos 8796093022208000) with (1000 * 2 ^ 43). ring.
Qed.

Lemma trunc_exact (s : bool) (m : positive) (e z : Z) :
  e <= 0 -> Zpos m = z * 2 ^ (- e) ->
  Float64.trunc (S754_finite s m e) = Some (cond_Zopp s z)
  /\ Float64.floor (S754_finite s m e) = Some (cond_Zopp s z).
Proof.
  intros He Hm. unfold Float64.trunc, Float64.floor, Float64.scaled.
  destruct e as [|p|p]; try lia.
  - assert (Hz : Zpos m = z) by (change (2 ^ (- 0)) with 1 in Hm; lia).
    rewrite Hz. rewrite Z.pow_0_r, Z.mul_1_r. split; reflexivity.
  - assert (Hb : 2 ^ Zpos p <> 0)
      by (apply Z.pow_nonzero; lia).
    assert (Hc : cond_Zopp s (Zpos m) = cond_Zopp s z * 2 ^ Zpos p).
    { rewrite Hm. change (- Zneg p) with (Zpos p).
      destruct s; simpl; lia. }
    rewrite Hc. split; f_equal.
    + apply Z.quot_mul, Hb.
    + apply Z.div_mul, Hb.
Qed.

Lemma epoch_microseconds_whole (t : Datetime.datetime) :
  Datetime.microsecond t = 0 ->
  epoch_microseconds t = epoch_seconds t * 1000000.
Proof.
  intros Hus.
  unfold epoch_microseconds, epoch_seconds, Datetime.sub,
    Datetime.wall_microseconds, Datetime.utcoffset.
  simpl. unfold Datetime.utc. rewrite Hus. lia.
Qed.

(** X17. For a datetime on a whole second the conversion is exact: the
    division by [10**6] and the product by 1000 are computed without
    rounding, and the field sent is the exact number of milliseconds from
    the epoch, before the epoch as well as after it. *)
Theorem whole_seconds_are_exact :
  forall (t : Datetime.datetime),
    Datetime.valid t = true ->
    Datetime.microsecond t = 0 ->
    utc_milliseconds t = Some (epoch_seconds t * 1000)
    /\ floor_milliseconds t = Some (epoch_seconds t * 1000)
    /\ exact_floor_milliseconds t = epoch_seconds t * 1000.
Proof.
  intros t Hv Hus.
  pose proof (epoch_microseconds_bound t Hv) as Hb.
  pose proof (epoch_microseconds_whole t Hus) as Hw.
  assert (Hexact : exact_floor_milliseconds t = epoch_seconds t * 1000).
  { unfold exact_floor_milliseconds. rewrite Hw.
    replace (epoch_seconds t * 1000000) with (epoch_seconds t * 1000 * 1000)
      by lia.
    apply Z.div_mul. lia. }
  split; [|split; [|exact Hexact]];
    unfold utc_milliseconds, floor_milliseconds, timestamp_milliseconds,
      Datetime.timestamp, Datetime.total_seconds;
    fold (epoch_microseconds t); rewrite Hw;
    rewrite Hw in Hb; change (2 ^ 59) with 576460752303423488 in Hb;
    set (s := epoch_seconds t) in *; clearbody s;
    (destruct (Z.eq_dec s 0) as [-> | Hnz]; [reflexivity|]);
    (assert (Hs : - 2 ^ 40 < s < 2 ^ 40)
       by (change (2 ^ 40) with 1099511627776; lia));
    destruct (int_true_divide_exact s Hnz Hs) as [m [e [Hd [He Hm]]]];
    rewrite Hd;
    (assert (Hz : 0 < Z.abs s < 2 ^ 40)
       by (change (2 ^ 40) with 1099511627776 in *; lia));
    destruct (mul_1000_exact (s <? 0) m e (Z.abs s) He Hz Hm)
      as [m' [e' [Hmul [He' Hm']]]];
    rewrite Hmul;
    destruct (trunc_exact (s <? 0) m' e' (Z.abs s * 1000) He' Hm')
      as [Ht Hf];
    [rewrite Ht | rewrite Hf]; f_equal;
    destruct (Z.ltb_spec s 0); simpl; lia.
Qed.

End Client.

(** ** Concrete runs *)

Example decoder_rejects_empty : JsonText.loads EmptyString = None.
Proof. reflexivity. Qed.

Example init_sample_client :
  result (init "http://tb.local" (JStr "A1B2C3") (Some "sensor-7") [] idle)
  = Ok sample_client.
Proof. reflexivity. Qed.

Example send_rpc_default_params :
  trace (final (send_rpc JsonText.loads sample_client "getTime" None
                  [answer 200 "17"] idle))
  = [Post (api_base_url sample_client ++ [Lit "/"; Lit "rpc"])%list
       (JDict [("method", JStr "getTime"); ("params", JDict [])])]
  /\ result (send_rpc JsonText.loads sample_client "getTime" None
               [answer 200 "17"] idle) = Ok (JInt 17).
Proof. split; reflexivity. Qed.

Example request_attributes_params :
  trace (final (request_attributes JsonText.loads sample_client
                  (Some ["model"]) None [] idle))
  = [Get (api_base_url sample_client ++ [Lit "/"; Lit "attributes"])%list
       [("client_keys", JList [JStr "model"]); ("shared_keys", JNull)]].
Proof. reflexivity. Qed.

Example connect_probe :
  result (connect JsonText.loads sample_client [answer 200 EmptyString] idle)
  = Ok tt
  /\ result (send_attributes JsonText.loads sample_client readings
               [answer 500 "down"] idle)
     = Exc (HTTPError {| status_code := 500; content := "down" |}).
Proof. split; reflexivity. Qed.

Example provisioned_body_decodes :
  JsonText.loads provisioned_body = Some (JDict provisioned_device).
Proof. vm_compute. reflexivity. Qed.

Example after_epoch_milliseconds :
  utc_milliseconds after_epoch = Some 1614834367891.
Proof. vm_compute. reflexivity. Qed.

Example before_epoch_milliseconds :
  utc_milliseconds before_epoch = Some 0
  /\ floor_milliseconds before_epoch = Some (-1)
  /\ exact_floor_milliseconds before_epoch = -1.
Proof. vm_compute. repeat split. Qed.

(** The product is a double: [1.001 * 1000] is [1000.9999999999999], so
    the field sent for 1970-01-01 00:00:01.001 is 1000, the floor of the
    double, where the exact count of milliseconds is 1001. *)
Example double_product_rounds_down :
  utc_milliseconds one_second_one_milli = Some 1000
  /\ floor_milliseconds one_second_one_milli = Some 1000
  /\ exact_floor_milliseconds one_second_one_milli = 1001.
Proof. vm_compute. repeat split. Qed.



(** C2: a 404 answer makes [publish_data] raise, but not an exception of
    class [TBHTTPAPIException]. *)
Lemma error_status_counterexample :
  ~ (exists e,
        result (publish_data JsonText.loads sample_client readings
                  "telemetry" [answer 404 "not found"] idle) = Exc e
        /\ is_TBHTTPAPIException e = true).
Proof.
  intros [e [He Hc]]. vm_compute in He. injection He as <-.
  discriminate Hc.
Qed.

Lemma error_status_raises_HTTPError_witness :
  400 <= 404 < 600
  /\ result (publish_data JsonText.loads sample_client readings "telemetry"
               [answer 404 "not found"] idle)
     = Exc (HTTPError {| status_code := 404; content := "not found" |})
  /\ result (get_data JsonText.loads sample_client [] "attributes"
               [answer 404 "not found"] idle)
     = Exc (HTTPError {| status_code := 404; content := "not found" |}).
Proof.
  split; [lia|].
  destruct (error_status_raises_HTTPError JsonText.loads sample_client
              readings [] "telemetry" (answer 404 "not found") [] idle
              {| status_code := 404; content := "not found" |} eq_refl
              ltac:(simpl; lia)) as [Hp _].
  destruct (error_status_raises_HTTPError JsonText.loads sample_client
              readings [] "attributes" (answer 404 "not found") [] idle
              {| status_code := 404; content := "not found" |} eq_refl
              ltac:(simpl; lia)) as [_ [Hg _]].
  split; [exact Hp | exact Hg].
Defined.

(** C3: a 2xx answer whose body is the empty mapping.  It carries
    neither 'SUCCESS' nor 'ACCESS_TOKEN', yet [provision] raises
    [KeyError], not [TBProvisionFailure]. *)
Lemma provision_empty_mapping_counterexample :
  is_2xx {| status_code := 200; content := "{}" |}
  /\ JsonText.loads "{}" = Some (JDict [])
  /\ result (provision JsonText.loads "http://tb.local" "sensor-7"
               "key" "secret" [answer 200 "{}"] idle)
     = Exc (KeyError "status")
  /\ ~ (exists body,
          result (provision JsonText.loads "http://tb.local" "sensor-7"
                    "key" "secret" [answer 200 "{}"] idle)
          = Exc (TBProvisionFailure body)).
Proof.
  split; [unfold is_2xx; simpl; lia|]. split; [reflexivity|].
  split; [reflexivity|].
  intros [body H]. vm_compute in H. discriminate H.
Qed.

Lemma provision_returns_client_or_fails_witness :
  is_2xx {| status_code := 200; content := provisioned_body |}
  /\ JsonText.loads provisioned_body = Some (JDict provisioned_device)
  /\ exists c,
       result (provision JsonText.loads "http://tb.local" "sensor-7"
                 "key" "secret" [answer 200 provisioned_body] idle) = Ok c
       /\ token c = JStr "X" /\ name c = Some "sensor-7".
Proof.
  assert (H2 : is_2xx {| status_code := 200; content := provisioned_body |})
    by (unfold is_2xx; simpl; lia).
  split; [exact H2|]. split; [exact provisioned_body_decodes|].
  apply (proj1 (proj1 (provision_returns_client_or_fails JsonText.loads
                         "http://tb.local" "sensor-7" "key" "secret"
                         (answer 200 provisioned_body) [] idle
                         {| status_code := 200; content := provisioned_body |}
                         eq_refl H2)
                  provisioned_device provisioned_body_decodes)
           (JStr "X")); reflexivity.
Defined.

Lemma gateway_timeout_reissues_get_witness :
  is_set attributes
    (polled sample_client attributes [] (answer 504 EmptyString) idle) = false
  /\ loop JsonText.loads sample_client attributes ignore [] None
       [answer 504 EmptyString] idle
     = (Blocked, [],
        {| subscriptions := subscriptions idle;
           trace := [Get (poll_url sample_client attributes) [];
                     Get (poll_url sample_client attributes) []] |}).
Proof.
  split; [reflexivity|].
  destruct (gateway_timeout_reissues_get JsonText.loads sample_client
              attributes ignore [] None (answer 504 EmptyString) [] idle
              {| status_code := 504; content := EmptyString |}
              eq_refl eq_refl eq_refl) as [_ [_ [Hl _]]].
  rewrite Hl. reflexivity.
Defined.

(** C5: with [timeout=0], a supplied timeout, a 408 answer does not end
    the attributes loop cleanly: the thread body raises. *)
Lemma request_timeout_zero_counterexample :
  result (target (fst (subscribe_to_attributes JsonText.loads sample_client
                         ignore (Some 0) idle))
            [answer 408 EmptyString] idle)
  = Exc (HTTPError {| status_code := 408; content := EmptyString |})
  /\ result (target (fst (subscribe_to_attributes JsonText.loads
                            sample_client ignore (Some 0) idle))
               [answer 408 EmptyString] idle)
     <> Ok tt.
Proof. split; [reflexivity | discriminate]. Qed.

Lemma request_timeout_ends_loop_witness :
  30 <> 0
  /\ is_set rpc
       (polled sample_client rpc (poll_params (Some 30))
          (answer 408 EmptyString) idle) = false
  /\ result (subscription JsonText.loads sample_client rpc ignore
               (poll_params (Some 30)) (Some 30)
               [answer 408 EmptyString] idle) = Ok tt.
Proof.
  assert (Hnz : 30 <> 0) by lia.
  split; [exact Hnz|]. split; [reflexivity|].
  apply (request_timeout_ends_loop JsonText.loads sample_client rpc ignore
           (poll_params (Some 30)) (Some 30) (answer 408 EmptyString) [] idle
           {| status_code := 408; content := EmptyString |} 30
           eq_refl Hnz eq_refl eq_refl eq_refl).
Defined.

Lemma unsubscribe_stops_loop_witness :
  result (loop JsonText.loads sample_client attributes ignore [] None
            [answer 200 "17"] idle) = Blocked
  /\ In attributes (during (answer_during attributes 200 "18"))
  /\ loop JsonText.loads sample_client attributes ignore [] None
       ([answer 200 "17"] ++ answer_during attributes 200 "18"
          :: [answer 200 "19"]) idle
     = (Ok tt, [answer 200 "19"],
        snd (arrive (answer_during attributes 200 "18")
               (final (loop JsonText.loads sample_client attributes ignore
                         [] None [answer 200 "17"] idle)))).
Proof.
  assert (Hb : result (loop JsonText.loads sample_client attributes ignore
                         [] None [answer 200 "17"] idle) = Blocked)
    by reflexivity.
  assert (Hin : In attributes (during (answer_during attributes 200 "18")))
    by (left; reflexivity).
  split; [exact Hb|]. split; [exact Hin|].
  apply (unsubscribe_stops_loop JsonText.loads sample_client attributes
           ignore [] None [answer 200 "17"]
           (answer_during attributes 200 "18") [answer 200 "19"] idle
           {| status_code := 200; content := "18" |}
           eq_refl Hb (or_intror Hin)).
Defined.

Example unsubscribe_run_trace :
  trace (final (loop JsonText.loads sample_client attributes ignore [] None
                  ([answer 200 "17"] ++ answer_during attributes 200 "18"
                     :: [answer 200 "19"]) idle))
  = [Get (poll_url sample_client attributes) []; Callback (JInt 17);
     Get (poll_url sample_client attributes) []].
Proof. reflexivity. Qed.

Lemma publish_data_returns_decoded_body_witness :
  is_2xx {| status_code := 200; content := "17" |}
  /\ result (publish_data JsonText.loads sample_client readings "telemetry"
               [answer 200 "17"] idle) = Ok (JInt 17)
  /\ result (publish_data JsonText.loads sample_client readings "telemetry"
               [answer 200 EmptyString] idle) = Ok (JDict []).
Proof.
  assert (H17 : is_2xx {| status_code := 200; content := "17" |})
    by (unfold is_2xx; simpl; lia).
  assert (H0 : is_2xx {| status_code := 200; content := EmptyString |})
    by (unfold is_2xx; simpl; lia).
  split; [exact H17|]. split.
  - apply (proj2 (publish_data_returns_decoded_body JsonText.loads
                    sample_client readings "telemetry" (answer 200 "17") []
                    idle _ eq_refl H17)); [discriminate | reflexivity].
  - apply (proj1 (publish_data_returns_decoded_body JsonText.loads
                    sample_client readings "telemetry"
                    (answer 200 EmptyString) [] idle _ eq_refl H0)).
    reflexivity.
Defined.



Lemma get_data_always_decodes_witness :
  JsonText.loads EmptyString = None
  /\ is_2xx {| status_code := 200; content := EmptyString |}
  /\ result (get_data JsonText.loads sample_client [] "attributes"
               [answer 200 EmptyString] idle) = Exc JSONDecodeError
  /\ result (publish_data JsonText.loads sample_client readings "attributes"
               [answer 200 EmptyString] idle) = Ok (JDict []).
Proof.
  assert (H0 : is_2xx {| status_code := 200; content := EmptyString |})
    by (unfold is_2xx; simpl; lia).
  split; [reflexivity|]. split; [exact H0|].
  apply (proj2 (get_data_always_decodes JsonText.loads sample_client []
                  readings "attributes" (answer 200 EmptyString) [] idle _
                  eq_refl eq_refl H0)).
  reflexivity.
Defined.

Lemma zero_timeout_is_no_timeout_witness :
  result (loop JsonText.loads sample_client attributes ignore [] (Some 0)
            [answer 200 "17"] (started attributes idle)) = Blocked
  /\ status_code {| status_code := 408; content := EmptyString |} = 408
  /\ ~ In attributes (during (answer 408 EmptyString))
  /\ is_set rpc idle = false
  /\ result (target (fst (subscribe_to_attributes JsonText.loads
                            sample_client ignore (Some 0) idle))
               ([answer 200 "17"] ++ answer 408 EmptyString
                  :: [answer 200 "18"])%list idle)
     = Exc (HTTPError {| status_code := 408; content := EmptyString |})
  /\ unread (target (fst (subscribe_to_attributes JsonText.loads
                            sample_client ignore (Some 0) idle))
               ([answer 200 "17"] ++ answer 408 EmptyString
                  :: [answer 200 "18"])%list idle)
     = [answer 200 "18"]
  /\ iteration JsonText.loads rpc ignore (Some 0)
       {| status_code := 408; content := EmptyString |} idle
     = (Raise (HTTPError {| status_code := 408; content := EmptyString |}),
        idle).
Proof.
  destruct (zero_timeout_is_no_timeout JsonText.loads sample_client ignore
              idle) as [_ [_ [_ [_ [Hit [_ Hthread]]]]]].
  assert (Hb : result (loop JsonText.loads sample_client attributes ignore
                         [] (Some 0) [answer 200 "17"]
                         (started attributes idle)) = Blocked)
    by reflexivity.
  assert (Hnot : ~ In attributes (during (answer 408 EmptyString)))
    by (intros H; exact H).
  pose proof (Hthread attributes [answer 200 "17"] (answer 408 EmptyString)
                [answer 200 "18"] idle
                {| status_code := 408; content := EmptyString |}
                Hb eq_refl eq_refl Hnot) as Hrun.
  split; [exact Hb|]. split; [reflexivity|]. split; [exact Hnot|].
  split; [reflexivity|].
  change (subscribe_to JsonText.loads attributes sample_client ignore
            (Some 0) idle)
    with (subscribe_to_attributes JsonText.loads sample_client ignore
            (Some 0) idle) in Hrun.
  rewrite Hrun.
  split; [reflexivity|]. split; [reflexivity|].
  exact (Hit rpc {| status_code := 408; content := EmptyString |} idle
           eq_refl eq_refl).
Defined.

Lemma http_error_iff_error_status_witness :
  outcome (answer 304 EmptyString)
  = Answer {| status_code := 304; content := EmptyString |}
  /\ ~ (exists r',
          result (publish_data JsonText.loads sample_client readings
                    "telemetry" [answer 304 EmptyString] idle)
          = Exc (HTTPError r')).
Proof.
  split; [reflexivity|]. intros H.
  apply (proj1 (http_error_iff_error_status JsonText.loads sample_client
                  readings [] "telemetry" (answer 304 EmptyString) [] idle
                  {| status_code := 304; content := EmptyString |} eq_refl))
    in H.
  unfold error_status in H. simpl in H. lia.
Defined.

Lemma plain_request_footprint_witness :
  outcome failure = Failure
  /\ result (publish_data JsonText.loads sample_client readings "telemetry"
               [failure] idle) = Exc ConnectionError
  /\ is_set rpc (final (publish_data JsonText.loads sample_client readings
                          "telemetry" [failure] idle)) = true.
Proof.
  destruct (plain_request_footprint JsonText.loads sample_client readings []
              "telemetry" failure [] idle) as [_ [Hf [_ [_ [Hx _]]]]].
  split; [reflexivity|]. split.
  - exact (proj1 (Hx eq_refl)).
  - rewrite Hf. reflexivity.
Defined.

Lemma connect_succeeds_iff_witness :
  outcome (answer 200 "oops")
  = Answer {| status_code := 200; content := "oops" |}
  /\ result (connect JsonText.loads sample_client [answer 200 "oops"] idle)
     <> Ok tt.
Proof.
  split; [reflexivity|]. intros H.
  apply (proj1 (proj1 (connect_succeeds_iff JsonText.loads sample_client
                         (answer 200 "oops") [] idle
                         {| status_code := 200; content := "oops" |}
                         eq_refl))) in H.
  destruct H as [_ [Hc | [v Hv]]]; [discriminate Hc|].
  vm_compute in Hv. discriminate Hv.
Defined.

Lemma provision_client_only_if_witness :
  result (provision JsonText.loads "http://tb.local" "sensor-7" "key"
            "secret" [answer 200 provisioned_body] idle)
  = Ok provisioned_client
  /\ exists r device value,
       outcome (answer 200 provisioned_body) = Answer r
       /\ ~ error_status r
       /\ JsonText.loads (content r) = Some (JDict device)
       /\ dict_get device "status" = Some (JStr "SUCCESS")
       /\ dict_get device "credentialsType" = Some (JStr "ACCESS_TOKEN")
       /\ dict_get device "credentialsValue" = Some value
       /\ provisioned_client
          = {| host := "http://tb.local"; token := value;
               name := Some "sensor-7";
               api_base_url :=
                 [Lit "http://tb.local"; Lit "/api/v1/"; Fmt value] |}.
Proof.
  assert (H : result (provision JsonText.loads "http://tb.local" "sensor-7"
                        "key" "secret" [answer 200 provisioned_body] idle)
              = Ok provisioned_client) by (vm_compute; reflexivity).
  split; [exact H|].
  exact (provision_client_only_if JsonText.loads "http://tb.local"
           "sensor-7" "key" "secret" (answer 200 provisioned_body) [] idle
           provisioned_client H).
Defined.

Lemma provision_malformed_body_witness :
  ~ error_status {| status_code := 200; content := "[1, 2]" |}
  /\ result (provision JsonText.loads "http://tb.local" "sensor-7" "key"
               "secret" [answer 200 "[1, 2]"] idle) = Exc TypeError
  /\ result (provision JsonText.loads "http://tb.local" "sensor-7" "key"
               "secret" [answer 200 "{}"] idle) = Exc (KeyError "status").
Proof.
  assert (Hne : forall body,
             ~ error_status {| status_code := 200; content := body |})
    by (intros body; unfold error_status; simpl; lia).
  split; [apply Hne|]. split.
  - apply (proj1 (proj2 (provision_malformed_body JsonText.loads
                           "http://tb.local" "sensor-7" "key" "secret"
                           (answer 200 "[1, 2]") [] idle _ eq_refl
                           (Hne "[1, 2]")))
             (JList [JInt 1; JInt 2]));
      [reflexivity | discriminate].
  - apply (proj1 (proj2 (proj2 (provision_malformed_body JsonText.loads
                                  "http://tb.local" "sensor-7" "key" "secret"
                                  (answer 200 "{}") [] idle _ eq_refl
                                  (Hne "{}"))) [] eq_refl));
      reflexivity.
Defined.

Lemma provision_footprint_witness :
  result (provision JsonText.loads "http://tb.local" "sensor-7" "key"
            "secret" [answer 200 provisioned_body]
            (unsubscribe_from_rpc idle))
  = Ok provisioned_client
  /\ is_set rpc
       (final (provision JsonText.loads "http://tb.local" "sensor-7" "key"
                 "secret" [answer 200 provisioned_body]
                 (unsubscribe_from_rpc idle))) = false.
Proof.
  assert (H : result (provision JsonText.loads "http://tb.local" "sensor-7"
                        "key" "secret" [answer 200 provisioned_body]
                        (unsubscribe_from_rpc idle))
              = Ok provisioned_client) by (vm_compute; reflexivity).
  split; [exact H|].
  exact (proj2 (proj2 (provision_footprint JsonText.loads "http://tb.local"
                         "sensor-7" "key" "secret"
                         (answer 200 provisioned_body) []
                         (unsubscribe_from_rpc idle)))
           provisioned_client H rpc).
Defined.

Lemma delivers_sample (body : string) (v : json) :
  JsonText.loads body = Some v ->
  delivers JsonText.loads attributes ignore (answer 200 body) v.
Proof.
  intros Hv. split; [intros []|].
  exists {| status_code := 200; content := body |}.
  split; [reflexivity|]. split; [unfold error_status; simpl; lia|].
  split; [exact Hv | reflexivity].
Defined.

Lemma callbacks_in_arrival_order_witness :
  is_set attributes idle = false
  /\ Forall2 (delivers JsonText.loads attributes ignore)
       [answer 200 "17"; answer 200 "18"] [JInt 17; JInt 18]
  /\ trace (final (loop JsonText.loads sample_client attributes ignore []
                     None [answer 200 "17"; answer 200 "18"] idle))
     = [Get (poll_url sample_client attributes) []; Callback (JInt 17);
        Get (poll_url sample_client attributes) []; Callback (JInt 18);
        Get (poll_url sample_client attributes) []].
Proof.
  assert (Hall : Forall2 (delivers JsonText.loads attributes ignore)
                   [answer 200 "17"; answer 200 "18"] [JInt 17; JInt 18]).
  { constructor; [apply delivers_sample; reflexivity|].
    constructor; [apply delivers_sample; reflexivity | constructor]. }
  split; [reflexivity|]. split; [exact Hall|].
  exact (proj1 (proj2 (callbacks_in_arrival_order JsonText.loads
                         sample_client attributes ignore [] None
                         [answer 200 "17"; answer 200 "18"]
                         [JInt 17; JInt 18] idle eq_refl Hall))).
Defined.

Lemma gateway_timeouts_are_transparent_witness :
  is_set rpc (polled sample_client rpc [] (answer 504 EmptyString) idle)
  = false
  /\ result (loop JsonText.loads sample_client rpc refuse [] None
               [answer 504 EmptyString; answer 200 "17"] idle)
     = result (loop JsonText.loads sample_client rpc refuse [] None
                 [answer 200 "17"] idle).
Proof.
  split; [reflexivity|].
  destruct (gateway_timeouts_are_transparent JsonText.loads sample_client
              rpc refuse [] None (answer 504 EmptyString) [answer 200 "17"]
              idle {| status_code := 504; content := EmptyString |}
              eq_refl eq_refl eq_refl) as [more [Hr _]].
  exact Hr.
Defined.

Lemma other_kind_unsubscribe_is_ignored_witness :
  rpc <> attributes
  /\ trace (final (loop JsonText.loads sample_client attributes ignore []
                     None
                     (map (without_calls rpc)
                        [answer_during rpc 200 "17"; answer 200 "18"]) idle))
     = trace (final (loop JsonText.loads sample_client attributes ignore []
                       None [answer_during rpc 200 "17"; answer 200 "18"]
                       idle)).
Proof.
  assert (Hne : rpc <> attributes) by discriminate.
  split; [exact Hne|].
  exact (proj1 (proj2 (other_kind_unsubscribe_is_ignored JsonText.loads
                         sample_client attributes ignore [] None rpc
                         [answer_during rpc 200 "17"; answer 200 "18"] idle
                         Hne))).
Defined.

Example unsubscribe_before_start_run :
  result (subscription JsonText.loads sample_client attributes ignore []
            None [answer 200 "17"] (unsubscribe_from_attributes idle))
  = Blocked
  /\ trace (final (subscription JsonText.loads sample_client attributes
                     ignore [] None [answer 200 "17"]
                     (unsubscribe_from_attributes idle)))
     = [Log INFO "Start subscription to attribute updates.";
        Get (poll_url sample_client attributes) []; Callback (JInt 17);
        Get (poll_url sample_client attributes) []].
Proof. split; reflexivity. Qed.

Lemma error_answer_ends_thread_witness :
  error_status {| status_code := 500; content := "down" |}
  /\ subscription JsonText.loads sample_client attributes ignore [] None
       ([answer 200 "17"] ++ answer 500 "down" :: [answer 200 "18"])%list
       idle
     = (Exc (HTTPError {| status_code := 500; content := "down" |}),
        [answer 200 "18"],
        calls []
          (final (loop JsonText.loads sample_client attributes ignore []
                    None [answer 200 "17"] (started attributes idle)))).
Proof.
  assert (He : error_status {| status_code := 500; content := "down" |})
    by (unfold error_status; simpl; lia).
  split; [exact He|].
  apply (proj1 (error_answer_ends_thread JsonText.loads sample_client
                  attributes ignore [] None [answer 200 "17"]
                  (answer 500 "down") [answer 200 "18"] idle
                  {| status_code := 500; content := "down" |}
                  eq_refl eq_refl (fun H : False => H) He
                  ltac:(simpl; lia)
                  ltac:(simpl; intros H; discriminate H))).
Defined.

Lemma callback_exception_ends_thread_witness :
  refuse (JInt 17) = Some (CallbackError "refused")
  /\ result (subscription JsonText.loads sample_client rpc refuse [] None
               ([] ++ answer 200 "17" :: [answer 200 "18"])%list idle)
     = Exc (CallbackError "refused")
  /\ unread (subscription JsonText.loads sample_client rpc refuse [] None
               ([] ++ answer 200 "17" :: [answer 200 "18"])%list idle)
     = [answer 200 "18"].
Proof.
  split; [reflexivity|].
  rewrite (proj1 (callback_exception_ends_thread JsonText.loads sample_client
                    rpc refuse [] None [] (answer 200 "17")
                    [answer 200 "18"] idle
                    {| status_code := 200; content := "17" |} (JInt 17)
                    (CallbackError "refused")
                    eq_refl eq_refl (fun H : False => H)
                    ltac:(unfold error_status; simpl; lia)
                    eq_refl eq_refl)).
  split; reflexivity.
Defined.

Lemma undecodable_answer_ends_thread_witness :
  JsonText.loads EmptyString = None
  /\ result (subscription JsonText.loads sample_client attributes ignore []
               None ([] ++ answer 200 EmptyString :: [answer 200 "18"])%list
               idle)
     = Exc JSONDecodeError.
Proof.
  split; [reflexivity|].
  rewrite (proj1 (undecodable_answer_ends_thread JsonText.loads sample_client
                    attributes ignore [] None [] (answer 200 EmptyString)
                    [answer 200 "18"] idle
                    {| status_code := 200; content := EmptyString |}
                    eq_refl eq_refl (fun H : False => H)
                    ltac:(unfold error_status; simpl; lia)
                    eq_refl)).
  reflexivity.
Defined.

Example thread_with_timeout_run :
  trace (final (target (fst (subscribe_to_rpc JsonText.loads sample_client
                               ignore (Some 30) idle))
                  [answer 200 "17"; answer 408 EmptyString] idle))
  = [Log INFO "Start subscription to RPCs.";
     Get (poll_url sample_client rpc) [("timeout", JInt 30)];
     Callback (JInt 17);
     Get (poll_url sample_client rpc) [("timeout", JInt 30)];
     Log INFO "Stop subscription to attribute updates."].
Proof. reflexivity. Qed.

Lemma whole_seconds_are_exact_witness :
  Datetime.valid whole_second = true
  /\ Datetime.microsecond whole_second = 0
  /\ utc_milliseconds whole_second = Some (-14182940000).
Proof.
  split; [reflexivity|]. split; [reflexivity|].
  exact (proj1 (whole_seconds_are_exact whole_second eq_refl eq_refl)).
Defined.
